(** * vjoy/vjoy_interface.py: the ctypes binding of the vJoy driver

    A shallow embedding of the module [vjoy.vjoy_interface] and the
    properties of its enumerations, of the FFB_DATA structure, of the
    discovery of the dll, of the function table and of the registration of
    the force feedback callback. *)

From Stdlib Require Import ZArith Decimal DecimalString DecimalPos DecimalZ.
From stdpp Require Import gmap strings list.

Local Open Scope string_scope.
Local Open Scope Z_scope.

(** ** Python values, exceptions and results *)

Module Py.

(** The Python objects the module handles as data: integers, booleans,
    tuples and [None]. *)
#[warnings="-register-all"]
Inductive pyval : Type :=
  | PyInt (z : Z)
  | PyBool (b : bool)
  | PyTuple (items : list pyval)
  | PyNone.

(** The exceptions the module and the library calls it makes can raise, each
    with its message. *)
Inductive exn : Type :=
  | GremlinError (msg : string)
  | ValueError (msg : string)
  | AttributeError (msg : string)
  | TypeError (msg : string)
  | OSError (msg : string).

Definition message (e : exn) : string :=
  match e with
  | GremlinError msg | ValueError msg | AttributeError msg
  | TypeError msg | OSError msg => msg
  end.

(** A call either returns a value or raises. *)
Inductive result (A : Type) : Type :=
  | Ok (a : A)
  | Raise (e : exn).

Arguments Ok {A} a.
Arguments Raise {A} e.

Definition is_ok {A} (r : result A) : bool :=
  match r with Ok _ => true | Raise _ => false end.

(** [bool] is a subclass of [int]: [True] counts as 1 and [False] as 0. *)
Definition int_of_bool (b : bool) : Z := if b then 1 else 0.

(** Python's [==] on these objects. A tuple never equals an integer. *)
Fixpoint py_eq (a b : pyval) {struct a} : bool :=
  match a, b with
  | PyInt x, PyInt y => x =? y
  | PyInt x, PyBool y => x =? int_of_bool y
  | PyBool x, PyInt y => int_of_bool x =? y
  | PyBool x, PyBool y => Bool.eqb x y
  | PyTuple xs, PyTuple ys =>
      (fix go (xs ys : list pyval) {struct xs} : bool :=
         match xs, ys with
         | [], [] => true
         | x :: xs', y :: ys' => py_eq x y && go xs' ys'
         | _, _ => false
         end) xs ys
  | PyNone, PyNone => true
  | _, _ => false
  end.

(** The only item of a tuple of one item, as [(code,) = member.value]
    unpacks it. *)
Definition unpack_single (v : pyval) : option pyval :=
  match v with
  | PyTuple [item] => Some item
  | _ => None
  end.

(** Truth value of an object, as [if obj:] tests it. *)
Definition truthy (v : pyval) : bool :=
  match v with
  | PyInt z => negb (z =? 0)
  | PyBool b => b
  | PyTuple items => negb (Nat.eqb (length items) 0)
  | PyNone => false
  end.

(** ["{:d}".format(value)] for an integer: its decimal digits, with a
    leading minus sign when it is negative. *)
Definition format_d (value : Z) : string :=
  NilZero.string_of_int (Z.to_int value).

(** Reads a decimal integer back from its text. *)
Definition parse_d (s : string) : option Z :=
  option_map Z.of_int (NilZero.int_of_string s).

End Py.

Import Py.

(** ** class FFBPType(enum.Enum) *)

Module FFBPType.

Inductive t : Type :=
  | PT_EFFREP
  | PT_ENVREP
  | PT_CONDREP
  | PT_PRIDREP
  | PT_CONSTREP
  | PT_RAMPREP
  | PT_CSTMREP
  | PT_SMPLREP
  | PT_EFOPREP
  | PT_BLKFRREP
  | PT_CTRLREP
  | PT_GAINREP
  | PT_SETCREP
  | PT_NEWEFREP
  | PT_BLKLDREP
  | PT_POOLREP.

#[global] Instance t_eq_dec : EqDecision t.
Proof. solve_decision. Defined.

(** The members in the order of their declaration. *)
Definition members : list t :=
  [ PT_EFFREP; PT_ENVREP; PT_CONDREP; PT_PRIDREP; PT_CONSTREP; PT_RAMPREP;
    PT_CSTMREP; PT_SMPLREP; PT_EFOPREP; PT_BLKFRREP; PT_CTRLREP; PT_GAINREP;
    PT_SETCREP; PT_NEWEFREP; PT_BLKLDREP; PT_POOLREP ].

(** The integer literal written in the declaration of a member. *)
Definition code (m : t) : Z :=
  match m with
  | PT_EFFREP => 0x01
  | PT_ENVREP => 0x02
  | PT_CONDREP => 0x03
  | PT_PRIDREP => 0x04
  | PT_CONSTREP => 0x05
  | PT_RAMPREP => 0x06
  | PT_CSTMREP => 0x07
  | PT_SMPLREP => 0x08
  | PT_EFOPREP => 0x0A
  | PT_BLKFRREP => 0x0B
  | PT_CTRLREP => 0x0C
  | PT_GAINREP => 0x0D
  | PT_SETCREP => 0x0E
  | PT_NEWEFREP => 0x01 + 0x10
  | PT_BLKLDREP => 0x02 + 0x10
  | PT_POOLREP => 0x03 + 0x10
  end.

(** [member.value]. Every declaration reads [NAME = literal,] and the comma
    after the literal makes the right-hand side a tuple of one item. *)
Definition value (m : t) : pyval := PyTuple [PyInt (code m)].

(** The closed set of packet type codes: the codes of the members. *)
Definition codes : list Z := map code members.

Definition invalid_prefix : string := "Invalid ffb type value ".

(** [FFBPType.from_ctype(value)], branch for branch. *)
Definition from_ctype (value : Z) : result t :=
  if value =? 0x01 then Ok PT_EFFREP
  else if value =? 0x02 then Ok PT_ENVREP
  else if value =? 0x03 then Ok PT_CONDREP
  else if value =? 0x04 then Ok PT_PRIDREP
  else if value =? 0x05 then Ok PT_CONSTREP
  else if value =? 0x06 then Ok PT_RAMPREP
  else if value =? 0x07 then Ok PT_CSTMREP
  else if value =? 0x08 then Ok PT_SMPLREP
  else if value =? 0x0A then Ok PT_EFOPREP
  else if value =? 0x0B then Ok PT_BLKFRREP
  else if value =? 0x0C then Ok PT_CTRLREP
  else if value =? 0x0D then Ok PT_GAINREP
  else if value =? 0x0E then Ok PT_SETCREP
  else if value =? 0x01 + 0x10 then Ok PT_NEWEFREP
  else if value =? 0x02 + 0x10 then Ok PT_BLKLDREP
  else if value =? 0x03 + 0x10 then Ok PT_POOLREP
  else Raise (GremlinError (invalid_prefix +:+ format_d value)).

(** The integer an error message of [from_ctype] names: the text after the
    fixed prefix, read as a decimal integer. *)
Definition offending_value (msg : string) : option Z :=
  if String.prefix invalid_prefix msg
  then parse_d (String.substring (String.length invalid_prefix)
                  (String.length msg - String.length invalid_prefix)%nat msg)
  else None.

End FFBPType.

(** ** class VJoyState(enum.Enum) *)

Module VJoyState.

Inductive t : Type :=
  | Owned
  | Free
  | Bust
  | Missing
  | Unknown.

#[global] Instance t_eq_dec : EqDecision t.
Proof. solve_decision. Defined.

Definition members : list t := [Owned; Free; Bust; Missing; Unknown].

(** [member.value]: the integers of the declaration, without a comma. *)
Definition value (m : t) : Z :=
  match m with
  | Owned => 0
  | Free => 1
  | Bust => 2
  | Missing => 3
  | Unknown => 4
  end.

(** [VJoyState(raw)]. The class declares no method of its own: the only
    conversion from a raw status code it has is the call of the enumeration
    by value, which finds the member declared with that value and raises
    [ValueError] when no member has it. *)
Definition by_value (raw : Z) : result t :=
  match find (fun m => value m =? raw) members with
  | Some m => Ok m
  | None => Raise (ValueError (format_d raw +:+ " is not a valid VJoyState"))
  end.

(** The conversion as the specification words it, for comparison with
    [by_value]: 0, 1, 2 and 3 give the four named states and every other
    integer gives [Unknown]. *)
Definition spec_device_state (raw : Z) : t :=
  if raw =? 0 then Owned
  else if raw =? 1 then Free
  else if raw =? 2 then Bust
  else if raw =? 3 then Missing
  else Unknown.

End VJoyState.

(** ** The part of ctypes the module uses *)

Module Ctypes.

(** The ctypes types named in the module. [CFUNCTYPE restype argtypes] is the
    type of a C callback; [restype] is [None] for a function returning
    nothing. *)
#[warnings="-register-all"]
Inductive ctype : Type :=
  | c_bool
  | c_short
  | c_int
  | c_uint
  | c_long
  | c_ulong
  | c_ubyte
  | c_uint32
  | c_void_p
  | c_char_p
  | c_wchar_p
  | CFUNCTYPE (restype : option ctype) (argtypes : list ctype).

Definition is_pointer (ty : ctype) : bool :=
  match ty with
  | c_void_p | c_char_p | c_wchar_p | CFUNCTYPE _ _ => true
  | _ => false
  end.

(** The widths, in bytes, that depend on the platform. *)
Record data_model : Type := {
  long_bytes : Z;
  pointer_bytes : Z
}.

(** 64 bit Windows, where the driver lives: [long] has 4 bytes. *)
Definition LLP64 : data_model := {| long_bytes := 4; pointer_bytes := 8 |}.
Definition ILP32 : data_model := {| long_bytes := 4; pointer_bytes := 4 |}.
Definition LP64 : data_model := {| long_bytes := 8; pointer_bytes := 8 |}.

(** [ctypes.sizeof(ty)]. *)
Definition sizeof (dm : data_model) (ty : ctype) : Z :=
  match ty with
  | c_bool | c_ubyte => 1
  | c_short => 2
  | c_int | c_uint | c_uint32 => 4
  | c_long | c_ulong => long_bytes dm
  | c_void_p | c_char_p | c_wchar_p | CFUNCTYPE _ _ => pointer_bytes dm
  end.

(** [ctypes.alignment(ty)]: these types are aligned on their size. *)
Definition alignment (dm : data_model) (ty : ctype) : Z := sizeof dm ty.

Definition align_up (offset align : Z) : Z :=
  ((offset + align - 1) / align) * align.

(** Offsets of the fields of a [ctypes.Structure] without [_pack_], from
    the offset [cur] on: each field at the next multiple of its alignment. *)
Fixpoint field_offsets (dm : data_model) (cur : Z)
    (fields : list (string * ctype)) : list (string * Z) :=
  match fields with
  | [] => []
  | (fname, ty) :: rest =>
      let off := align_up cur (alignment dm ty) in
      (fname, off) :: field_offsets dm (off + sizeof dm ty) rest
  end.

Definition wrap_unsigned (bits v : Z) : Z := v mod 2 ^ bits.

Definition wrap_signed (bits v : Z) : Z :=
  (v + 2 ^ (bits - 1)) mod 2 ^ bits - 2 ^ (bits - 1).

(** An integer passed for a parameter of an integer type: ctypes checks no
    overflow, the integer is cut to the width of the type. *)
Definition to_c (dm : data_model) (ty : ctype) (v : Z) : Z :=
  match ty with
  | c_bool => int_of_bool (negb (v =? 0))
  | c_ubyte => wrap_unsigned 8 v
  | c_short => wrap_signed 16 v
  | c_int => wrap_signed 32 v
  | c_uint | c_uint32 => wrap_unsigned 32 v
  | c_long => wrap_signed (8 * long_bytes dm) v
  | c_ulong => wrap_unsigned (8 * long_bytes dm) v
  | c_void_p | c_char_p | c_wchar_p | CFUNCTYPE _ _ =>
      wrap_unsigned (8 * pointer_bytes dm) v
  end.

(** The Python object a call returns for the raw value [raw] the native
    function left, by the [restype] of the function. A [c_bool] reads one
    byte; an integer type gives the integer of its width; [None] gives
    [None]. The string types read memory, which is outside this model. *)
Definition of_c (dm : data_model) (restype : option ctype) (raw : Z)
    : option pyval :=
  match restype with
  | None => Some PyNone
  | Some c_bool => Some (PyBool (negb (wrap_unsigned 8 raw =? 0)))
  | Some c_ubyte => Some (PyInt (wrap_unsigned 8 raw))
  | Some c_short => Some (PyInt (wrap_signed 16 raw))
  | Some c_int => Some (PyInt (wrap_signed 32 raw))
  | Some c_uint | Some c_uint32 => Some (PyInt (wrap_unsigned 32 raw))
  | Some c_long => Some (PyInt (wrap_signed (8 * long_bytes dm) raw))
  | Some c_ulong => Some (PyInt (wrap_unsigned (8 * long_bytes dm) raw))
  | Some c_void_p =>
      let p := wrap_unsigned (8 * pointer_bytes dm) raw in
      Some (if p =? 0 then PyNone else PyInt p)
  | Some c_char_p | Some c_wchar_p | Some (CFUNCTYPE _ _) => None
  end.

(** The C types of the driver's header. *)
Inductive c_type : Type :=
  | C_unsigned_long
  | C_pointer_to_bytes.

(** Modelled from the spec: the native FFB_DATA record of the driver's
    header, which this module mirrors and does not contain: size (unsigned
    long), command (unsigned long), payload (raw byte pointer). *)
Definition native_FFB_DATA : list c_type :=
  [C_unsigned_long; C_unsigned_long; C_pointer_to_bytes].

(** The C type a ctypes type stands for, among those of the record. *)
Definition c_type_of (ty : ctype) : option c_type :=
  match ty with
  | c_ulong => Some C_unsigned_long
  | c_char_p => Some C_pointer_to_bytes
  | _ => None
  end.

(** [class _FFB_DATA(ctypes.Structure)]: its [_fields_]. *)
Definition _FFB_DATA_fields : list (string * ctype) :=
  [ ("size", c_ulong);
    ("cmd", c_ulong);
    ("data", c_char_p) ].

(** [C_FFB_CALLBACK = ctypes.CFUNCTYPE(None, ctypes.c_void_p, ctypes.c_void_p)] *)
Definition C_FFB_CALLBACK : ctype := CFUNCTYPE None [c_void_p; c_void_p].

End Ctypes.

Import Ctypes.

(** ** class VJoyInterface *)

Module VJoyInterface.

(** A Python callable, known by the identity of the object. *)
Inductive callable : Type :=
  | PyCallable (id : positive).

(** The ctypes objects the class creates. *)
Inductive cobj : Type :=
  | CFuncPtr (prototype : ctype) (target : callable)
  | CUInt (held : Z)
  | ByRef (referent : cobj).

(** [prototype(callback)]: a C function pointer that runs [callback]. *)
Definition new_callback (prototype : ctype) (callback : callable) : cobj :=
  CFuncPtr prototype callback.

(** [ctypes.c_uint(v)]: an unsigned int object holding [v], cut to 32 bits. *)
Definition new_c_uint (v : Z) : cobj := CUInt (wrap_unsigned 32 v).

(** [ctypes.byref(obj)]: the address of [obj]. *)
Definition byref (obj : cobj) : cobj := ByRef obj.

(** A function of the loaded library, with the attributes ctypes keeps on
    it. A function just taken from the library has no [argtypes] and
    returns [c_int]; a [restype] of [None] is a function returning nothing. *)
Record dll_fn : Type := {
  symbol : string;
  argtypes : option (list ctype);
  restype : option ctype
}.

Definition fresh_fn (name : string) : dll_fn :=
  {| symbol := name; argtypes := None; restype := Some c_int |}.

(** An entry of [api_functions]: a dict with the keys ["arguments"] and
    ["returns"]. A key that is absent is [None]; the value [None] of
    ["returns"] is [Some None]. *)
Record params : Type := {
  arguments : option (list ctype);
  returns : option (option ctype)
}.

Definition entry (args : list ctype) (ret : option ctype) : params :=
  {| arguments := Some args; returns := Some ret |}.

(** [api_functions], in the order of the dict display. *)
Definition api_functions : list (string * params) :=
  [ (* General vJoy information *)
    ("GetvJoyVersion", entry [] (Some c_short));
    ("vJoyEnabled", entry [] (Some c_bool));
    ("GetvJoyProductString", entry [] (Some c_wchar_p));
    ("GetvJoyManufacturerString", entry [] (Some c_wchar_p));
    ("GetvJoySerialNumberString", entry [] (Some c_wchar_p));
    (* Device properties *)
    ("GetVJDButtonNumber", entry [c_uint] (Some c_int));
    ("GetVJDDiscPovNumber", entry [c_uint] (Some c_int));
    ("GetVJDContPovNumber", entry [c_uint] (Some c_int));
    ("GetVJDAxisExist", entry [c_uint; c_uint] (Some c_int));
    ("GetVJDAxisMax", entry [c_uint; c_uint; c_void_p] (Some c_bool));
    ("GetVJDAxisMin", entry [c_uint; c_uint; c_void_p] (Some c_bool));
    (* Device management *)
    ("GetOwnerPid", entry [c_uint] (Some c_int));
    ("AcquireVJD", entry [c_uint] (Some c_bool));
    ("RelinquishVJD", entry [c_uint] None);
    ("UpdateVJD", entry [c_uint; c_void_p] (Some c_bool));
    ("GetVJDStatus", entry [c_uint] (Some c_int));
    (* Reset functions *)
    ("ResetVJD", entry [c_uint] (Some c_bool));
    ("ResetAll", entry [] None);
    ("ResetButtons", entry [c_uint] (Some c_bool));
    ("ResetPovs", entry [c_uint] (Some c_bool));
    (* Set values *)
    ("SetAxis", entry [c_long; c_uint; c_uint] (Some c_bool));
    ("SetBtn", entry [c_bool; c_uint; c_ubyte] (Some c_bool));
    ("SetDiscPov", entry [c_int; c_uint; c_ubyte] (Some c_bool));
    ("SetContPov", entry [c_ulong; c_uint; c_ubyte] (Some c_bool));
    (* FFB Functions *)
    ("FfbStart", entry [c_uint] (Some c_bool));
    ("FfbStop", entry [c_uint] (Some c_bool));
    ("IsDeviceFfb", entry [c_uint] (Some c_bool));
    ("FfbRegisterGenCB", entry [C_FFB_CALLBACK; c_void_p] None);
    ("Ffb_h_Type", entry [c_void_p; c_void_p] (Some c_uint32)) ].

(** [api_functions[name]] *)
Definition api_lookup (name : string) : option params :=
  snd <$> find (fun e => String.eqb (fst e) name) api_functions.

(** What the class does to the world around it, in the order it does it.
    An argument of a native call is a ctypes object or [None]. *)
Inductive event : Type :=
  | EvIsFile (path : string)
  | EvLoadLibrary (path : string)
  | EvGetAttr (name : string)
  | EvSetAttr (name : string) (fn : dll_fn)
  | EvNative (name : string) (args : list (option cobj)).

(** The class attributes that change, and the events so far (latest last). *)
Record state : Type := {
  vjoy_dll : option string;
  ffb_callback_fn : option cobj;
  attrs : gmap string dll_fn;
  trace : list event
}.

(** The files [os.path.isfile] is asked about, in order. *)
Definition probed (tr : list event) : list string :=
  omap (fun e => match e with EvIsFile p => Some p | _ => None end) tr.

(** The files handed to [LoadLibrary], in order. *)
Definition loaded (tr : list event) : list string :=
  omap (fun e => match e with EvLoadLibrary p => Some p | _ => None end) tr.

(** The names [setattr] has bound on the class, in order. *)
Definition bound_names (tr : list event) : list string :=
  omap (fun e => match e with EvSetAttr n _ => Some n | _ => None end) tr.

(** The names the library was asked for, in order. *)
Definition asked_names (tr : list event) : list string :=
  omap (fun e => match e with EvGetAttr n => Some n | _ => None end) tr.

(** The native functions called, in order. *)
Definition native_calls (tr : list event) : list string :=
  omap (fun e => match e with EvNative n _ => Some n | _ => None end) tr.

(** Before the class statement runs. *)
Definition start : state :=
  {| vjoy_dll := None; ffb_callback_fn := None; attrs := ∅; trace := [] |}.

(** Code that reads and changes the state and returns or raises. *)
Definition M (A : Type) : Type := state -> result A * state.

Definition ret {A} (a : A) : M A := fun s => (Ok a, s).

Definition raise {A} (e : exn) : M A := fun s => (Raise e, s).

Definition bind {A B} (c : M A) (k : A -> M B) : M B :=
  fun s =>
    match c s with
    | (Ok a, s') => k a s'
    | (Raise e, s') => (Raise e, s')
    end.

Declare Scope vjoy_scope.
Delimit Scope vjoy_scope with vjoy.
Notation "'let*' x := c 'in' k" := (bind c (fun x => k))
  (at level 10, x name, c at level 100, k at level 200) : vjoy_scope.
Notation "c ;;; k" := (bind c (fun _ => k))
  (at level 100, k at level 200, right associativity) : vjoy_scope.

Definition emit (e : event) : M unit :=
  fun s =>
    (Ok tt, {| vjoy_dll := vjoy_dll s; ffb_callback_fn := ffb_callback_fn s;
               attrs := attrs s; trace := trace s ++ [e] |}).

Definition set_vjoy_dll (path : string) : M unit :=
  fun s =>
    (Ok tt, {| vjoy_dll := Some path; ffb_callback_fn := ffb_callback_fn s;
               attrs := attrs s; trace := trace s |}).

Definition set_ffb_callback_fn (fn : option cobj) : M unit :=
  fun s =>
    (Ok tt, {| vjoy_dll := vjoy_dll s; ffb_callback_fn := fn;
               attrs := attrs s; trace := trace s |}).

Definition get_ffb_callback_fn : M (option cobj) :=
  fun s => (Ok (ffb_callback_fn s), s).

Definition get_vjoy_dll : M (option string) :=
  fun s => (Ok (vjoy_dll s), s).

Definition dll_name : string := "vJoyInterface.dll".

Section World.

(** What lies outside the module: the file system ([os.path.isfile]), the
    directory of the module ([os.path.dirname(__file__)]), [os.path.join],
    the symbols a library file exports, and the loader of the system: for a
    path that does not load as a library, the text of the [OSError] that
    [ctypes.cdll.LoadLibrary] raises. *)
Variable isfile : string -> bool.
Variable module_dir : string.
Variable path_join : string -> string -> string.
Variable exports : string -> string -> bool.
Variable load_failure : string -> option string.

Local Open Scope vjoy_scope.

Definition os_path_isfile (path : string) : M bool :=
  emit (EvIsFile path) ;;; ret (isfile path).

(** [vjoy_dll = ctypes.cdll.LoadLibrary(path)]: the path is handed to the
    loader; when the file loads, [vjoy_dll] is the library, and when it does
    not, [OSError] is raised and [vjoy_dll] is not assigned. *)
Definition LoadLibrary (path : string) : M unit :=
  emit (EvLoadLibrary path) ;;;
  match load_failure path with
  | None => set_vjoy_dll path
  | Some msg => raise (OSError msg)
  end.

(** [dev_path = os.path.join(os.path.dirname(__file__), "vJoyInterface.dll")] *)
Definition dev_path : string := path_join module_dir dll_name.

(** The statements of the class body up to [ffb_callback_fn = None]. *)
Definition class_body : M unit :=
  let* cwd_found := os_path_isfile dll_name in
  let* dll_path :=
    (if cwd_found then ret dll_name
     else
       let* dev_found := os_path_isfile dev_path in
       if dev_found then ret dev_path
       else raise (GremlinError "Unable to locate vjoy dll")) in
  LoadLibrary dll_path ;;;
  set_ffb_callback_fn None.

(** [getattr(cls.vjoy_dll, fn_name)]: the function of that name in the
    loaded library, or [AttributeError] when the library has none. *)
Definition getattr_dll (fn_name : string) : M dll_fn :=
  emit (EvGetAttr fn_name) ;;;
  let* dll := get_vjoy_dll in
  match dll with
  | Some path =>
      if exports path fn_name then ret (fresh_fn fn_name)
      else raise (AttributeError ("function '" +:+ fn_name +:+ "' not found"))
  | None => raise (AttributeError "vjoy_dll")
  end.

(** [setattr(cls, fn_name, dll_fn)] *)
Definition setattr_cls (fn_name : string) (fn : dll_fn) : M unit :=
  fun s =>
    (Ok tt, {| vjoy_dll := vjoy_dll s; ffb_callback_fn := ffb_callback_fn s;
               attrs := <[fn_name := fn]> (attrs s);
               trace := trace s ++ [EvSetAttr fn_name fn] |}).

(** The two assignments of the loop of [initialize]: [argtypes] when the
    entry has the key ["arguments"], [restype] when it has ["returns"]. *)
Definition configure (fn : dll_fn) (p : params) : dll_fn :=
  let dll_fn :=
    match arguments p with
    | Some a => {| symbol := symbol fn; argtypes := Some a;
                   restype := restype fn |}
    | None => fn
    end in
  match returns p with
  | Some r => {| symbol := symbol dll_fn; argtypes := argtypes dll_fn;
                 restype := r |}
  | None => dll_fn
  end.

(** The body of the loop of [initialize] for one item of the table. *)
Definition bind_function (fn_name : string) (p : params) : M unit :=
  let* dll_fn := getattr_dll fn_name in
  setattr_cls fn_name (configure dll_fn p).

Fixpoint for_items (items : list (string * params)) : M unit :=
  match items with
  | [] => ret tt
  | (fn_name, p) :: rest => bind_function fn_name p ;;; for_items rest
  end.

(** [VJoyInterface.initialize()] *)
Definition initialize : M unit := for_items api_functions.

(** The module from the class statement to its last line. *)
Definition module_body : M unit := class_body ;;; initialize.

(** [VJoyInterface.set_ffb_event_callback(callback, vjoy_id)]. The library
    function is reached through [vjoy_dll], where the import of the module
    has left it: the class exists once the import has ended well, that is
    once [initialize] has taken [FfbRegisterGenCB] from the library, which
    keeps the functions taken from it. The lookup of the name is therefore
    no step of its own here; on a library without the name it would raise
    [AttributeError] after the slot was assigned. *)
Definition set_ffb_event_callback (callback : callable) (vjoy_id : Z)
    : M unit :=
  set_ffb_callback_fn (Some (new_callback C_FFB_CALLBACK callback)) ;;;
  let* fn := get_ffb_callback_fn in
  emit (EvNative "FfbRegisterGenCB" [fn; Some (byref (new_c_uint vjoy_id))]).

End World.

(** The native call one registration is to make: the function pointer of
    the handler and the address of an unsigned int holding the device id. *)
Definition registration (call : callable * Z) : event :=
  EvNative "FfbRegisterGenCB"
    [ Some (CFuncPtr C_FFB_CALLBACK call.1);
      Some (ByRef (CUInt (call.2 mod 2 ^ 32))) ].

(** The class attributes after [setattr] has bound [items], one after the
    other, on top of the attributes [m]. *)
Definition bind_all (items : list (string * params)) (m : gmap string dll_fn)
    : gmap string dll_fn :=
  foldl (fun m it => <[it.1 := configure (fresh_fn it.1) it.2]> m) m items.

(** The events of binding [items]: each name asked of the library and then
    set on the class. *)
Definition binding_events (items : list (string * params)) : list event :=
  flat_map (fun it => [EvGetAttr it.1;
                       EvSetAttr it.1 (configure (fresh_fn it.1) it.2)]) items.

(** A sequence of registrations, one call after the other. *)
Fixpoint register_all (calls : list (callable * Z)) : M unit :=
  match calls with
  | [] => ret tt
  | (callback, vjoy_id) :: rest =>
      bind (set_ffb_event_callback callback vjoy_id)
           (fun _ => register_all rest)
  end.

(** A call [fn(args)] of a bound function on integers: fewer arguments than
    [argtypes] is a [TypeError]; each argument is converted by its type, one
    beyond [argtypes] as a [c_int]; the result by [restype]. *)
Fixpoint convert_args (dm : data_model) (tys : list ctype) (args : list Z)
    : list Z :=
  match tys, args with
  | ty :: tys', a :: args' => to_c dm ty a :: convert_args dm tys' args'
  | [], args => map (to_c dm c_int) args
  | _ :: _, [] => []
  end.

Definition call (dm : data_model) (native : list Z -> Z) (fn : dll_fn)
    (args : list Z) : result (option pyval) :=
  let tys := default [] (argtypes fn) in
  if (length args <? length tys)%nat
  then Raise (TypeError "this function takes more arguments")
  else Ok (of_c dm (restype fn) (native (convert_args dm tys args))).

End VJoyInterface.

(** * Properties *)

(** ** Decimal text *)

Lemma to_int_neither_nil (v : Z) :
  Z.to_int v <> Pos Nil /\ Z.to_int v <> Neg Nil.
Proof.
  destruct v as [|p|p]; cbn; split; try discriminate;
    intros [= Hnil]; exact (Unsigned.to_uint_nonnil p Hnil).
Qed.

Lemma parse_format_d (v : Z) : parse_d (format_d v) = Some v.
Proof.
  unfold parse_d, format_d.
  destruct (to_int_neither_nil v) as [Hpos Hneg].
  rewrite NilZero.isi by assumption.
  cbn. now rewrite DecimalZ.of_to.
Qed.

Lemma format_d_inj (v w : Z) : format_d v = format_d w -> v = w.
Proof.
  intros Heq. apply (f_equal parse_d) in Heq.
  rewrite !parse_format_d in Heq. congruence.
Qed.

Lemma prefix_append (p s : string) : String.prefix p (p +:+ s) = true.
Proof.
  induction p as [|c p IH]; simpl.
  - now destruct s.
  - destruct (Ascii.ascii_dec c c); [exact IH | congruence].
Qed.

Lemma substring_all (s : string) : String.substring 0 (String.length s) s = s.
Proof. induction s as [|c s IH]; cbn; [reflexivity | now rewrite IH]. Qed.

Lemma substring_after (p s : string) :
  String.substring (String.length p)
    (String.length (p +:+ s) - String.length p) (p +:+ s) = s.
Proof.
  induction p as [|c p IH]; simpl.
  - rewrite Nat.sub_0_r. apply substring_all.
  - exact IH.
Qed.

(** ** FFBPType *)

Section FFBPTypeFacts.

Import FFBPType.

Lemma from_ctype_code (m : t) : from_ctype (code m) = Ok m.
Proof. destruct m; reflexivity. Qed.

Lemma from_ctype_Ok (v : Z) (m : t) : from_ctype v = Ok m -> v = code m.
Proof.
  unfold from_ctype.
  repeat match goal with
         | |- context [?a =? ?b] => destruct (Z.eqb_spec a b) as [->|?]
         end; intros [= <-]; reflexivity.
Qed.

Lemma code_inj (m m' : t) : code m = code m' -> m = m'.
Proof.
  intros Heq. pose proof (from_ctype_code m) as Hm.
  rewrite Heq, from_ctype_code in Hm. congruence.
Qed.

Lemma elem_of_codes (v : Z) : v ∈ codes <-> exists m, v = code m.
Proof.
  unfold codes. rewrite list_elem_of_fmap. split.
  - intros (m & -> & _). now exists m.
  - intros (m & ->). exists m. split; [reflexivity|].
    destruct m; unfold members; set_solver.
Qed.

Lemma from_ctype_outside (v : Z) :
  v ∉ codes ->
  from_ctype v = Raise (GremlinError (invalid_prefix +:+ format_d v)).
Proof.
  intros Hout.
  destruct (from_ctype v) as [m|e] eqn:Hres.
  - exfalso. apply Hout, elem_of_codes. exists m. now apply from_ctype_Ok.
  - revert Hres. unfold from_ctype.
    repeat match goal with
           | |- context [?a =? ?b] => destruct (Z.eqb_spec a b) as [->|?]
           end; try discriminate.
    now intros [= <-].
Qed.

Lemma offending_value_invalid (v : Z) :
  offending_value (invalid_prefix +:+ format_d v) = Some v.
Proof.
  unfold offending_value.
  rewrite prefix_append, substring_after. apply parse_format_d.
Qed.

(** C1. Every code of the closed set decodes to a member, and the value of
    that member is not the code: at the code 0x01 [from_ctype] returns
    [PT_EFFREP], whose value is the tuple [(1,)], which Python does not hold
    equal to the integer 1; the same goes for the code of every member. *)
Theorem C1_value_of_decoded_member_is_not_the_code :
  from_ctype 0x01 = Ok PT_EFFREP /\
  value PT_EFFREP = PyTuple [PyInt 1] /\
  py_eq (value PT_EFFREP) (PyInt 0x01) = false /\
  forall m : t,
    from_ctype (code m) = Ok m /\
    value m <> PyInt (code m) /\
    py_eq (value m) (PyInt (code m)) = false.
Proof.
  repeat split; try reflexivity.
  - apply from_ctype_code.
  - discriminate.
Qed.

(** C2. For every integer outside the closed set of packet type codes
    [from_ctype] raises a [GremlinError], it returns no member, and the
    message of the error is the fixed text followed by the decimal digits of
    that integer, from which the integer is read back. *)
Theorem C2_from_ctype_outside_raises (v : Z) :
  v ∉ FFBPType.codes ->
  from_ctype v = Raise (GremlinError ("Invalid ffb type value " +:+ format_d v)) /\
  is_ok (from_ctype v) = false /\
  offending_value (message (GremlinError ("Invalid ffb type value " +:+ format_d v)))
    = Some v /\
  forall w : Z,
    w ∉ FFBPType.codes ->
    from_ctype w = from_ctype v -> w = v.
Proof.
  intros Hout. rewrite (from_ctype_outside v Hout).
  repeat split.
  - apply offending_value_invalid.
  - intros w Hw. rewrite (from_ctype_outside w Hw).
    intros [= Heq]. now apply format_d_inj.
Qed.

Lemma C2_from_ctype_outside_raises_witness :
  from_ctype 9 = Raise (GremlinError "Invalid ffb type value 9") /\
  from_ctype (-3) = Raise (GremlinError "Invalid ffb type value -3").
Proof.
  split.
  - apply (C2_from_ctype_outside_raises 9).
    apply (bool_decide_eq_false_1 (9 ∈ FFBPType.codes)). vm_compute. reflexivity.
  - apply (C2_from_ctype_outside_raises (-3)).
    apply (bool_decide_eq_false_1 (-3 ∈ FFBPType.codes)). vm_compute. reflexivity.
Defined.

(** C3. [from_ctype(0x0B)] is [PT_BLKFRREP], [from_ctype(0x13)] is
    [PT_POOLREP], and [from_ctype(0x09)] raises the error whose message
    names the value 9. *)
Theorem C3_from_ctype_scenario :
  from_ctype 0x0B = Ok PT_BLKFRREP /\
  from_ctype 0x13 = Ok PT_POOLREP /\
  from_ctype 0x09 = Raise (GremlinError "Invalid ffb type value 9") /\
  offending_value "Invalid ffb type value 9" = Some 9.
Proof. repeat split. Qed.

(** C10. For every code [v] of the closed set, the value of the member
    [from_ctype(v)] is the tuple [(v,)] and not the integer [v]; the integer
    is the item the tuple unpacks to. *)
Theorem C10_member_value_is_a_tuple (v : Z) :
  v ∈ FFBPType.codes ->
  exists m : t,
    from_ctype v = Ok m /\
    value m = PyTuple [PyInt v] /\
    value m <> PyInt v /\
    py_eq (value m) (PyInt v) = false /\
    unpack_single (value m) = Some (PyInt v).
Proof.
  intros Hin. apply elem_of_codes in Hin as [m ->].
  exists m. rewrite from_ctype_code. repeat split. discriminate.
Qed.

Lemma C10_member_value_is_a_tuple_witness :
  exists m : t,
    from_ctype 0x0B = Ok m /\
    value m = PyTuple [PyInt 0x0B] /\
    value m <> PyInt 0x0B /\
    py_eq (value m) (PyInt 0x0B) = false /\
    unpack_single (value m) = Some (PyInt 0x0B).
Proof.
  apply (C10_member_value_is_a_tuple 0x0B).
  apply (bool_decide_unpack _). vm_compute. exact I.
Defined.

End FFBPTypeFacts.

(** ** VJoyState *)

Section VJoyStateFacts.

Import VJoyState.

Lemma by_value_value (m : t) : by_value (value m) = Ok m.
Proof. destruct m; reflexivity. Qed.

Lemma by_value_Ok (raw : Z) (m : t) : by_value raw = Ok m -> raw = value m.
Proof.
  unfold by_value.
  destruct (find _ members) as [m'|] eqn:Hfind; [|discriminate].
  intros [= ->]. apply find_some in Hfind as [_ Heq].
  symmetry. now apply Z.eqb_eq.
Qed.

Lemma by_value_out_of_range (raw : Z) :
  ~ (0 <= raw <= 4) ->
  by_value raw = Raise (ValueError (format_d raw +:+ " is not a valid VJoyState")).
Proof.
  intros Hout. unfold by_value.
  destruct (find _ members) as [m|] eqn:Hfind; [|reflexivity].
  apply find_some in Hfind as [_ Heq]. apply Z.eqb_eq in Heq.
  destruct m; cbn in Heq; lia.
Qed.

(** C4, as the claim states it, fails: the code 99 is none of 0, 1, 2, 3,
    and the lookup of 99 raises [ValueError], it does not yield [Unknown];
    so do -1 and 1000. *)
Lemma C4_by_value_99_raises :
  by_value 99 = Raise (ValueError "99 is not a valid VJoyState") /\
  by_value 99 <> Ok (spec_device_state 99) /\
  is_ok (by_value (-1)) = false /\
  is_ok (by_value 1000) = false /\
  ~ (forall raw : Z, by_value raw = Ok (spec_device_state raw)).
Proof.
  repeat split; try discriminate.
  intros Hall. specialize (Hall 99). discriminate.
Qed.

(** C4, amended. The lookup of a raw status code by value yields [Owned],
    [Free], [Bust] and [Missing] for the codes 0, 1, 2 and 3 and [Unknown]
    for the code 4, the value [Unknown] is declared with; on these codes it
    agrees with the conversion of the specification. For every other
    integer it raises [ValueError]. *)
Theorem C4_by_value_total_on_declared_codes (raw : Z) :
  by_value 0 = Ok Owned /\
  by_value 1 = Ok Free /\
  by_value 2 = Ok Bust /\
  by_value 3 = Ok Missing /\
  by_value 4 = Ok Unknown /\
  (0 <= raw <= 4 -> by_value raw = Ok (spec_device_state raw)) /\
  (~ (0 <= raw <= 4) ->
   by_value raw
   = Raise (ValueError (format_d raw +:+ " is not a valid VJoyState"))).
Proof.
  repeat split.
  - intros Hin.
    assert (raw = 0 \/ raw = 1 \/ raw = 2 \/ raw = 3 \/ raw = 4)
      as [->|[->|[->|[->| ->]]]] by lia; reflexivity.
  - apply by_value_out_of_range.
Qed.

Lemma C4_by_value_total_on_declared_codes_witness :
  by_value 3 = Ok (spec_device_state 3) /\
  by_value 1000 = Raise (ValueError "1000 is not a valid VJoyState").
Proof.
  split.
  - apply (C4_by_value_total_on_declared_codes 3). lia.
  - apply (C4_by_value_total_on_declared_codes 1000). lia.
Defined.

End VJoyStateFacts.

(** ** VJoyInterface: the discovery of the library *)

Section DiscoveryFacts.

Import VJoyInterface.

Variable isfile : string -> bool.
Variable module_dir : string.
Variable path_join : string -> string -> string.
Variable exports : string -> string -> bool.
Variable load_failure : string -> option string.

Local Abbreviation dev_path := (VJoyInterface.dev_path module_dir path_join).

Lemma class_body_cwd :
  isfile dll_name = true ->
  class_body isfile module_dir path_join load_failure start
  = match load_failure dll_name with
    | None =>
        (Ok tt, {| vjoy_dll := Some dll_name; ffb_callback_fn := None;
                   attrs := ∅;
                   trace := [EvIsFile dll_name; EvLoadLibrary dll_name] |})
    | Some msg =>
        (Raise (OSError msg),
         {| vjoy_dll := None; ffb_callback_fn := None; attrs := ∅;
            trace := [EvIsFile dll_name; EvLoadLibrary dll_name] |})
    end.
Proof.
  intros Hcwd. unfold class_body, bind, os_path_isfile, LoadLibrary, bind. cbn.
  rewrite Hcwd. cbn. now destruct (load_failure dll_name).
Qed.

Lemma class_body_dev :
  isfile dll_name = false -> isfile dev_path = true ->
  class_body isfile module_dir path_join load_failure start
  = match load_failure dev_path with
    | None =>
        (Ok tt, {| vjoy_dll := Some dev_path; ffb_callback_fn := None;
                   attrs := ∅;
                   trace := [EvIsFile dll_name; EvIsFile dev_path;
                             EvLoadLibrary dev_path] |})
    | Some msg =>
        (Raise (OSError msg),
         {| vjoy_dll := None; ffb_callback_fn := None; attrs := ∅;
            trace := [EvIsFile dll_name; EvIsFile dev_path;
                      EvLoadLibrary dev_path] |})
    end.
Proof.
  intros Hcwd Hdev. unfold class_body, bind, os_path_isfile, LoadLibrary, bind.
  cbn. rewrite Hcwd. cbn. rewrite Hdev. cbn.
  now destruct (load_failure dev_path).
Qed.

Lemma class_body_neither :
  isfile dll_name = false -> isfile dev_path = false ->
  class_body isfile module_dir path_join load_failure start
  = (Raise (GremlinError "Unable to locate vjoy dll"),
     {| vjoy_dll := None; ffb_callback_fn := None; attrs := ∅;
        trace := [EvIsFile dll_name; EvIsFile dev_path] |}).
Proof.
  intros Hcwd Hdev. unfold class_body, bind, os_path_isfile, bind. cbn.
  rewrite Hcwd. cbn. rewrite Hdev. reflexivity.
Qed.

(** C5. The class body asks for at most two files, first
    ["vJoyInterface.dll"] relative to the working directory and then the
    file of that name in the directory of the module, and hands the first
    that is a file, and no other, to [LoadLibrary]: the first whenever it is
    one, also when the second is one too; the second when only it is one.
    When the chosen file loads, it is the library of the class; when it
    does not load, [OSError] is raised, the other candidate is not tried
    and the module stops there. When neither is a file the body raises
    [GremlinError], nothing is handed to [LoadLibrary], and the module
    stops there: [initialize] asks the library for no function. *)
Theorem C5_library_discovery :
  let run := class_body isfile module_dir path_join load_failure start in
  let whole :=
    module_body isfile module_dir path_join exports load_failure start in
  (isfile dll_name = true ->
   probed (trace run.2) = [dll_name] /\ loaded (trace run.2) = [dll_name] /\
   (load_failure dll_name = None ->
    run.1 = Ok tt /\ vjoy_dll run.2 = Some dll_name) /\
   (forall msg, load_failure dll_name = Some msg ->
    run.1 = Raise (OSError msg) /\ vjoy_dll run.2 = None /\ whole = run)) /\
  (isfile dll_name = false -> isfile dev_path = true ->
   probed (trace run.2) = [dll_name; dev_path] /\
   loaded (trace run.2) = [dev_path] /\
   (load_failure dev_path = None ->
    run.1 = Ok tt /\ vjoy_dll run.2 = Some dev_path) /\
   (forall msg, load_failure dev_path = Some msg ->
    run.1 = Raise (OSError msg) /\ vjoy_dll run.2 = None /\ whole = run)) /\
  (isfile dll_name = false -> isfile dev_path = false ->
   run.1 = Raise (GremlinError "Unable to locate vjoy dll") /\
   vjoy_dll run.2 = None /\
   probed (trace run.2) = [dll_name; dev_path] /\
   loaded (trace run.2) = [] /\
   whole = run).
Proof.
  cbv zeta. unfold module_body, bind. split; [|split].
  - intros Hcwd. rewrite (class_body_cwd Hcwd).
    destruct (load_failure dll_name) as [msg|]; cbn.
    + split; [reflexivity|]. split; [reflexivity|]. split; [discriminate|].
      intros msg' [= <-]. repeat split.
    + split; [reflexivity|]. split; [reflexivity|]. split; [auto|].
      discriminate.
  - intros Hcwd Hdev. rewrite (class_body_dev Hcwd Hdev).
    destruct (load_failure dev_path) as [msg|]; cbn.
    + split; [reflexivity|]. split; [reflexivity|]. split; [discriminate|].
      intros msg' [= <-]. repeat split.
    + split; [reflexivity|]. split; [reflexivity|]. split; [auto|].
      discriminate.
  - intros Hcwd Hdev. rewrite (class_body_neither Hcwd Hdev). repeat split.
Qed.

End DiscoveryFacts.

(** Worlds with the library in both places, with it beside the module only,
    with a file of that name in the working directory that does not load,
    and without it. *)
Lemma C5_library_discovery_witness :
  let join := fun d f => d +:+ "/" +:+ f in
  let loads := fun _ : string => @None string in
  (VJoyInterface.class_body (fun _ => true) "vjoy" join loads
     VJoyInterface.start).1
    = Ok tt /\
  VJoyInterface.vjoy_dll
    (VJoyInterface.class_body (fun p => String.eqb p "vjoy/vJoyInterface.dll")
       "vjoy" join loads VJoyInterface.start).2
    = Some "vjoy/vJoyInterface.dll" /\
  (VJoyInterface.class_body (fun _ => true) "vjoy" join
     (fun _ => Some "[WinError 193]") VJoyInterface.start).1
    = Raise (OSError "[WinError 193]") /\
  (VJoyInterface.class_body (fun _ => false) "vjoy" join loads
     VJoyInterface.start).1
    = Raise (GremlinError "Unable to locate vjoy dll").
Proof.
  cbv zeta. split; [|split; [|split]].
  - destruct (C5_library_discovery (fun _ => true) "vjoy"
                (fun d f => d +:+ "/" +:+ f) (fun _ _ => true)
                (fun _ => None))
      as (Hcwd & _ & _).
    destruct (Hcwd eq_refl) as (_ & _ & Hloads & _).
    apply Hloads. reflexivity.
  - destruct (C5_library_discovery
                (fun p => String.eqb p "vjoy/vJoyInterface.dll") "vjoy"
                (fun d f => d +:+ "/" +:+ f) (fun _ _ => true)
                (fun _ => None))
      as (_ & Hdev & _).
    destruct (Hdev eq_refl eq_refl) as (_ & _ & Hloads & _).
    apply Hloads. reflexivity.
  - destruct (C5_library_discovery (fun _ => true) "vjoy"
                (fun d f => d +:+ "/" +:+ f) (fun _ _ => true)
                (fun _ => Some "[WinError 193]"))
      as (Hcwd & _ & _).
    destruct (Hcwd eq_refl) as (_ & _ & _ & Hfails).
    apply (Hfails "[WinError 193]"). reflexivity.
  - destruct (C5_library_discovery (fun _ => false) "vjoy"
                (fun d f => d +:+ "/" +:+ f) (fun _ _ => true)
                (fun _ => None))
      as (_ & _ & Hnone).
    apply Hnone; reflexivity.
Defined.

(** ** The FFB_DATA structure *)

(** C7. [_FFB_DATA] has three fields, in the order size, cmd, data. The
    first two have the type [c_ulong], hence one width, that of the native
    unsigned long, in every data model; the third is a pointer type with
    the width of a pointer. Field for field they stand for the C types of
    the native record, and on Windows they lie at the offsets 0, 4 and 8. *)
Theorem C7_FFB_DATA_fields :
  length _FFB_DATA_fields = 3%nat /\
  _FFB_DATA_fields.*1 = ["size"; "cmd"; "data"] /\
  _FFB_DATA_fields.*2 = [c_ulong; c_ulong; c_char_p] /\
  (forall dm : data_model,
     (sizeof dm <$> _FFB_DATA_fields.*2)
     = [long_bytes dm; long_bytes dm; pointer_bytes dm]) /\
  (is_pointer <$> _FFB_DATA_fields.*2) = [false; false; true] /\
  mapM c_type_of _FFB_DATA_fields.*2 = Some native_FFB_DATA /\
  field_offsets LLP64 0 _FFB_DATA_fields = [("size", 0); ("cmd", 4); ("data", 8)] /\
  field_offsets ILP32 0 _FFB_DATA_fields = [("size", 0); ("cmd", 4); ("data", 8)] /\
  field_offsets LP64 0 _FFB_DATA_fields = [("size", 0); ("cmd", 8); ("data", 16)].
Proof. repeat split. Qed.

(** ** VJoyInterface: the callback slot *)

Section CallbackFacts.

Import VJoyInterface.

Lemma set_ffb_event_callback_run (callback : callable) (vjoy_id : Z) (s : state) :
  set_ffb_event_callback callback vjoy_id s
  = (Ok tt, {| vjoy_dll := vjoy_dll s;
               ffb_callback_fn := Some (CFuncPtr C_FFB_CALLBACK callback);
               attrs := attrs s;
               trace := trace s ++ [registration (callback, vjoy_id)] |}).
Proof. reflexivity. Qed.

Lemma register_all_run (calls : list (callable * Z)) (s : state) :
  register_all calls s
  = (Ok tt, {| vjoy_dll := vjoy_dll s;
               ffb_callback_fn :=
                 match last calls with
                 | Some call => Some (CFuncPtr C_FFB_CALLBACK call.1)
                 | None => ffb_callback_fn s
                 end;
               attrs := attrs s;
               trace := trace s ++ (registration <$> calls) |}).
Proof.
  revert s. induction calls as [|[callback vjoy_id] calls IH]; intros s.
  - cbn. rewrite app_nil_r. now destruct s.
  - cbn [register_all]. unfold bind.
    rewrite set_ffb_event_callback_run, IH. cbn.
    rewrite <- app_assoc, last_cons. cbn.
    now destruct (last calls).
Qed.

(** C6. The class has one slot, [ffb_callback_fn]. After a sequence of
    calls of [set_ffb_event_callback] that ends with the call for
    [callback], every call has returned, the slot holds the function
    pointer made for [callback] and nothing of the earlier handlers, and
    each call has made one native call [FfbRegisterGenCB] whose second
    argument is the address of a [c_uint] holding the device id of that
    call. In particular a second registration replaces the first. *)
Theorem C6_single_callback_slot
    (earlier : list (callable * Z)) (callback : callable) (vjoy_id : Z)
    (s : state) :
  let run := register_all (earlier ++ [(callback, vjoy_id)]) s in
  run.1 = Ok tt /\
  ffb_callback_fn run.2 = Some (new_callback C_FFB_CALLBACK callback) /\
  trace run.2
  = (trace s ++ (registration <$> earlier)
       ++ [EvNative "FfbRegisterGenCB"
             [ Some (new_callback C_FFB_CALLBACK callback);
               Some (byref (new_c_uint vjoy_id)) ]])%list /\
  (forall first : callable * Z,
     ffb_callback_fn
       (register_all [first; (callback, vjoy_id)] s).2
     = Some (new_callback C_FFB_CALLBACK callback)).
Proof.
  cbv zeta. rewrite register_all_run. cbn [fst snd].
  rewrite last_snoc, fmap_app. repeat split.
  intros first. now rewrite register_all_run.
Qed.

End CallbackFacts.

(** ** VJoyInterface: the function table *)

Section InitializeFacts.

Import VJoyInterface.

Variable exports : string -> string -> bool.

Lemma api_functions_NoDup : NoDup api_functions.*1.
Proof. apply (bool_decide_unpack _). vm_compute. exact I. Qed.

Lemma bind_function_found (name : string) (p : params) (s : state) (path : string) :
  vjoy_dll s = Some path -> exports path name = true ->
  bind_function exports name p s
  = (Ok tt, {| vjoy_dll := vjoy_dll s; ffb_callback_fn := ffb_callback_fn s;
               attrs := <[name := configure (fresh_fn name) p]> (attrs s);
               trace := (trace s ++ [EvGetAttr name])
                          ++ [EvSetAttr name (configure (fresh_fn name) p)] |}).
Proof.
  intros Hdll Hexp. unfold bind_function, getattr_dll, bind. cbn.
  rewrite Hdll, Hexp. reflexivity.
Qed.

Lemma bind_function_missing (name : string) (p : params) (s : state) (path : string) :
  vjoy_dll s = Some path -> exports path name = false ->
  bind_function exports name p s
  = (Raise (AttributeError ("function '" +:+ name +:+ "' not found")),
     {| vjoy_dll := vjoy_dll s; ffb_callback_fn := ffb_callback_fn s;
        attrs := attrs s; trace := trace s ++ [EvGetAttr name] |}).
Proof.
  intros Hdll Hexp. unfold bind_function, getattr_dll, bind. cbn.
  rewrite Hdll, Hexp. reflexivity.
Qed.

Lemma bind_all_cons (n : string) (p : params) (items : list (string * params))
    (m : gmap string dll_fn) :
  bind_all ((n, p) :: items) m
  = bind_all items (<[n := configure (fresh_fn n) p]> m).
Proof. reflexivity. Qed.

Lemma bind_all_other (items : list (string * params)) (m : gmap string dll_fn)
    (name : string) :
  name ∉ items.*1 -> bind_all items m !! name = m !! name.
Proof.
  revert m. induction items as [|[n p] items IH]; intros m Hnot; [reflexivity|].
  rewrite fmap_cons in Hnot. apply not_elem_of_cons in Hnot as [Hne Hnot].
  rewrite bind_all_cons, IH by assumption. now rewrite lookup_insert_ne.
Qed.

Lemma bind_all_lookup (items : list (string * params)) (m : gmap string dll_fn)
    (name : string) (p : params) :
  NoDup items.*1 -> (name, p) ∈ items ->
  bind_all items m !! name = Some (configure (fresh_fn name) p).
Proof.
  revert m. induction items as [|[n q] items IH]; intros m Hnd Hin.
  - now apply elem_of_nil in Hin.
  - rewrite fmap_cons in Hnd. apply NoDup_cons in Hnd as [Hfresh Hnd].
    rewrite bind_all_cons.
    apply elem_of_cons in Hin as [[= -> ->]|Hin].
    + rewrite bind_all_other by assumption. apply lookup_insert_eq.
    + now apply IH.
Qed.

Lemma asked_binding_events (items : list (string * params)) :
  asked_names (binding_events items) = items.*1.
Proof. induction items as [|[n p] items IH]; cbn; [|rewrite <- IH]; reflexivity. Qed.

Lemma bound_binding_events (items : list (string * params)) :
  bound_names (binding_events items) = items.*1.
Proof. induction items as [|[n p] items IH]; cbn; [|rewrite <- IH]; reflexivity. Qed.

Lemma for_items_found (items : list (string * params)) (s : state) (path : string) :
  vjoy_dll s = Some path ->
  Forall (fun it => exports path it.1 = true) items ->
  for_items exports items s
  = (Ok tt, {| vjoy_dll := vjoy_dll s; ffb_callback_fn := ffb_callback_fn s;
               attrs := bind_all items (attrs s);
               trace := trace s ++ binding_events items |}).
Proof.
  revert s. induction items as [|[n p] items IH]; intros s Hdll Hall.
  - cbn. rewrite app_nil_r. now destruct s.
  - apply Forall_cons in Hall as [Hn Hall]. cbn in Hn.
    cbn [for_items]. unfold bind.
    rewrite (bind_function_found n p s path Hdll Hn).
    rewrite IH by (exact Hdll || exact Hall). cbn [vjoy_dll ffb_callback_fn attrs trace].
    rewrite bind_all_cons, <- !app_assoc. reflexivity.
Qed.

Lemma for_items_first_missing (pre post : list (string * params))
    (n : string) (p : params) (s : state) (path : string) :
  vjoy_dll s = Some path ->
  Forall (fun it => exports path it.1 = true) pre ->
  exports path n = false ->
  for_items exports (pre ++ (n, p) :: post) s
  = (Raise (AttributeError ("function '" +:+ n +:+ "' not found")),
     {| vjoy_dll := vjoy_dll s; ffb_callback_fn := ffb_callback_fn s;
        attrs := bind_all pre (attrs s);
        trace := trace s ++ binding_events pre ++ [EvGetAttr n] |}).
Proof.
  revert s. induction pre as [|[m q] pre IH]; intros s Hdll Hall Hn.
  - cbn [app for_items]. unfold bind.
    now rewrite (bind_function_missing n p s path Hdll Hn).
  - apply Forall_cons in Hall as [Hm Hall]. cbn in Hm.
    rewrite <- app_comm_cons. cbn [for_items]. unfold bind.
    rewrite (bind_function_found m q s path Hdll Hm).
    rewrite IH by (exact Hdll || exact Hall || exact Hn). cbn [vjoy_dll ffb_callback_fn attrs trace].
    rewrite bind_all_cons, <- !app_assoc. reflexivity.
Qed.

Lemma first_missing (items : list (string * params)) (path : string) :
  Exists (fun it => exports path it.1 = false) items ->
  exists pre n p post,
    items = (pre ++ (n, p) :: post)%list /\
    Forall (fun it => exports path it.1 = true) pre /\
    exports path n = false.
Proof.
  induction items as [|[n p] items IH]; intros Hex.
  - now apply Exists_nil in Hex.
  - destruct (exports path n) eqn:Hn.
    + apply Exists_cons in Hex as [Hex|Hex]; [cbn in Hex; congruence|].
      destruct (IH Hex) as (pre & n' & p' & post & -> & Hpre & Hn').
      exists ((n, p) :: pre), n', p', post. repeat split; [|assumption].
      now apply Forall_cons.
    + exists [], n, p, items. repeat split; [constructor | assumption].
Qed.

End InitializeFacts.

Section FunctionTableClaims.

Import VJoyInterface.

Variable exports : string -> string -> bool.

Lemma api_functions_entries :
  Forall (fun it => exists args ret, it.2 = entry args ret) api_functions.
Proof. unfold api_functions. repeat constructor; cbn; eauto. Qed.

Lemma initialize_attr (path : string) (s : state) (name : string)
    (args : list ctype) (ret : option ctype) :
  vjoy_dll s = Some path ->
  (forall n, n ∈ api_functions.*1 -> exports path n = true) ->
  (name, entry args ret) ∈ api_functions ->
  attrs (initialize exports s).2 !! name
  = Some {| symbol := name; argtypes := Some args; restype := ret |}.
Proof.
  intros Hdll Hall Hin. unfold initialize.
  rewrite (for_items_found exports api_functions s path Hdll).
  - cbn [snd attrs].
    now rewrite (bind_all_lookup _ _ _ _ api_functions_NoDup Hin).
  - apply Forall_forall. intros [n p] Hnp. apply Hall.
    apply list_elem_of_fmap. now exists (n, p).
Qed.

(** C8. [initialize] goes through the table once. When the loaded library
    exports every name of the table, it returns, it has asked the library
    for each name once and set each name once on the class, in the order of
    the table, whose names are all different, and each name is bound to the
    library function carrying the [argtypes] and the [restype] of its
    entry. When the library lacks a name of the table, [initialize] raises
    [AttributeError] for a name of the table the library lacks, and leaves
    that name as it was on the class. *)
Theorem C8_initialize_binds_or_raises (path : string) (s : state) :
  vjoy_dll s = Some path ->
  let run := initialize exports s in
  NoDup api_functions.*1 /\
  ((forall name, name ∈ api_functions.*1 -> exports path name = true) ->
   run.1 = Ok tt /\
   asked_names (trace run.2) = (asked_names (trace s) ++ api_functions.*1)%list /\
   bound_names (trace run.2) = (bound_names (trace s) ++ api_functions.*1)%list /\
   forall name p, (name, p) ∈ api_functions ->
     exists args ret,
       p = entry args ret /\
       attrs run.2 !! name
       = Some {| symbol := name; argtypes := Some args; restype := ret |}) /\
  (forall name, name ∈ api_functions.*1 -> exports path name = false ->
   exists missing,
     missing ∈ api_functions.*1 /\ exports path missing = false /\
     run.1 = Raise (AttributeError ("function '" +:+ missing +:+ "' not found")) /\
     attrs run.2 !! missing = attrs s !! missing /\
     missing ∉ drop (length (bound_names (trace s))) (bound_names (trace run.2))).
Proof.
  intros Hdll. cbv zeta. split; [exact api_functions_NoDup|]. split.
  - intros Hall.
    assert (Forall (fun it => exports path it.1 = true) api_functions) as Hfor.
    { apply Forall_forall. intros [n p] Hnp. apply Hall.
      apply list_elem_of_fmap. now exists (n, p). }
    unfold initialize at 1 2 3.
    rewrite (for_items_found exports api_functions s path Hdll Hfor).
    cbn [fst snd trace]. unfold asked_names, bound_names.
    rewrite !omap_app.
    fold (asked_names (binding_events api_functions)).
    fold (bound_names (binding_events api_functions)).
    rewrite asked_binding_events, bound_binding_events.
    repeat split.
    intros name p Hin.
    pose proof (proj1 (Forall_forall _ _) api_functions_entries _ Hin)
      as (args & ret & Hp).
    cbn in Hp. subst p. exists args, ret. split; [reflexivity|].
    now apply (initialize_attr path).
  - intros name Hin Hname.
    assert (Exists (fun it => exports path it.1 = false) api_functions) as Hex.
    { apply Exists_exists. apply list_elem_of_fmap in Hin as ([n p] & -> & Hnp).
      now exists (n, p). }
    destruct (first_missing exports api_functions path Hex)
      as (pre & missing & p & post & Hsplit & Hpre & Hmiss).
    pose proof api_functions_NoDup as Hnd.
    unfold initialize. rewrite Hsplit in Hnd |- *.
    rewrite (for_items_first_missing exports pre post missing p s path Hdll Hpre Hmiss).
    rewrite fmap_app, fmap_cons in Hnd.
    apply NoDup_app in Hnd as (_ & Hdisj & _).
    assert (missing ∉ pre.*1) as Hnotpre.
    { intros Hin'. apply (Hdisj _ Hin'). now left. }
    exists missing. cbn [fst snd attrs trace]. repeat split.
    + rewrite fmap_app, fmap_cons. apply elem_of_app. right. now left.
    + assumption.
    + now apply bind_all_other.
    + unfold bound_names. rewrite !omap_app. cbn. rewrite app_nil_r.
      rewrite drop_app_length.
      fold (bound_names (binding_events pre)).
      now rewrite bound_binding_events.
Qed.

Lemma wrap_signed_small (bits v : Z) :
  0 < bits -> - 2 ^ (bits - 1) <= v < 2 ^ (bits - 1) -> wrap_signed bits v = v.
Proof.
  intros Hbits Hv. unfold wrap_signed.
  assert (2 ^ bits = 2 * 2 ^ (bits - 1)) as Hpow.
  { rewrite <- Z.pow_succ_r by lia. f_equal. lia. }
  rewrite Z.mod_small by lia. lia.
Qed.

(** C9. The entry [GetVJDAxisExist] of the table takes two [c_uint] and
    returns [c_int], not [c_bool], and [initialize] binds the function with
    them. For every device id and axis id, a call of the bound function
    returns the integer the native function has returned, as a Python
    integer and as it is; that integer is true when it is not zero. *)
Theorem C9_axis_exist_returns_the_native_int
    (dm : data_model) (native : list Z -> Z) (dev axis : Z)
    (path : string) (s : state) :
  let fn := {| symbol := "GetVJDAxisExist"; argtypes := Some [c_uint; c_uint];
               restype := Some c_int |} in
  let r := native [dev mod 2 ^ 32; axis mod 2 ^ 32] in
  api_lookup "GetVJDAxisExist" = Some (entry [c_uint; c_uint] (Some c_int)) /\
  restype fn <> Some c_bool /\
  (vjoy_dll s = Some path ->
   (forall name, name ∈ api_functions.*1 -> exports path name = true) ->
   attrs (initialize exports s).2 !! "GetVJDAxisExist" = Some fn) /\
  (- 2 ^ 31 <= r < 2 ^ 31 ->
   call dm native fn [dev; axis] = Ok (Some (PyInt r)) /\
   truthy (PyInt r) = negb (r =? 0)).
Proof.
  cbv zeta. split; [reflexivity|]. split; [discriminate|]. split.
  - intros Hdll Hall. apply (initialize_attr path); try assumption.
    unfold api_functions. set_solver.
  - intros Hr. split; [|reflexivity].
    unfold call. cbn -[Z.pow wrap_signed]. unfold wrap_unsigned.
    now rewrite wrap_signed_small by lia.
Qed.

End FunctionTableClaims.

(** A library that exports every name, and one that lacks [Ffb_h_Type]. *)
Lemma C8_initialize_binds_or_raises_witness :
  let loaded := {| VJoyInterface.vjoy_dll := Some "vJoyInterface.dll"; VJoyInterface.ffb_callback_fn := None;
                   VJoyInterface.attrs := ∅; VJoyInterface.trace := [] |} in
  (VJoyInterface.initialize (fun _ _ => true) loaded).1 = Ok tt /\
  exists missing,
    (VJoyInterface.initialize (fun _ n => negb (String.eqb n "Ffb_h_Type")) loaded).1
    = Raise (AttributeError ("function '" +:+ missing +:+ "' not found")).
Proof.
  cbv zeta. split.
  - destruct (C8_initialize_binds_or_raises (fun _ _ => true)
                "vJoyInterface.dll"
                {| VJoyInterface.vjoy_dll := Some "vJoyInterface.dll"; VJoyInterface.ffb_callback_fn := None;
                   VJoyInterface.attrs := ∅; VJoyInterface.trace := [] |} eq_refl)
      as (_ & Hfound & _).
    apply Hfound. intros name _. reflexivity.
  - destruct (C8_initialize_binds_or_raises
                (fun _ n => negb (String.eqb n "Ffb_h_Type"))
                "vJoyInterface.dll"
                {| VJoyInterface.vjoy_dll := Some "vJoyInterface.dll"; VJoyInterface.ffb_callback_fn := None;
                   VJoyInterface.attrs := ∅; VJoyInterface.trace := [] |} eq_refl)
      as (_ & _ & Hmissing).
    destruct (Hmissing "Ffb_h_Type") as (missing & _ & _ & Hraise & _).
    + apply (bool_decide_unpack _). vm_compute. exact I.
    + reflexivity.
    + exists missing. exact Hraise.
Defined.

(** A driver that answers 1 for the axis 0x30 and 0 for every other axis. *)
Lemma C9_axis_exist_returns_the_native_int_witness :
  let native := fun args : list Z =>
    match args with [_; axis] => if axis =? 0x30 then 1 else 0 | _ => 0 end in
  let fn := {| VJoyInterface.symbol := "GetVJDAxisExist";
               VJoyInterface.argtypes := Some [c_uint; c_uint];
               VJoyInterface.restype := Some c_int |} in
  VJoyInterface.call LLP64 native fn [1; 0x30] = Ok (Some (PyInt 1)) /\
  VJoyInterface.call LLP64 native fn [1; 0x39] = Ok (Some (PyInt 0)).
Proof.
  cbv zeta. split.
  - apply (C9_axis_exist_returns_the_native_int (fun _ _ => true) LLP64
             (fun args : list Z =>
                match args with
                | [_; axis] => if axis =? 0x30 then 1 else 0
                | _ => 0
                end) 1 0x30 "vJoyInterface.dll" VJoyInterface.start).
    vm_compute. split; [discriminate | reflexivity].
  - apply (C9_axis_exist_returns_the_native_int (fun _ _ => true) LLP64
             (fun args : list Z =>
                match args with
                | [_; axis] => if axis =? 0x30 then 1 else 0
                | _ => 0
                end) 1 0x39 "vJoyInterface.dll" VJoyInterface.start).
    vm_compute. split; [discriminate | reflexivity].
Defined.


(** * Further properties of the module *)

(** ** FFBPType.from_ctype *)

Section FFBPTypeExtras.

Import FFBPType.

(** X1. [from_ctype] returns a member exactly for the code the member is
    declared with: no other integer decodes to it, and two integers that
    decode to one member are equal. *)
Theorem X1_from_ctype_decodes_exactly_the_code (v : Z) (m : t) :
  (from_ctype v = Ok m <-> v = code m) /\
  (forall w : Z, from_ctype v = Ok m -> from_ctype w = Ok m -> v = w).
Proof.
  split.
  - split; [apply from_ctype_Ok | intros ->; apply from_ctype_code].
  - intros w Hv Hw. apply from_ctype_Ok in Hv, Hw. congruence.
Qed.

Lemma X1_from_ctype_decodes_exactly_the_code_witness :
  0x0C = code PT_CTRLREP /\ from_ctype 0x0C = Ok PT_CTRLREP.
Proof.
  split; [reflexivity|].
  apply (X1_from_ctype_decodes_exactly_the_code 0x0C PT_CTRLREP). reflexivity.
Defined.

(** X2. [from_ctype] returns a member exactly on the integers 1 to 8, 10 to
    14 and 17 to 19: it raises on 0 and below, on 9, on 15 and 16, and on
    20 and above. *)
Theorem X2_from_ctype_accepted_range (v : Z) :
  is_ok (from_ctype v) = true
  <-> 1 <= v <= 8 \/ 10 <= v <= 14 \/ 17 <= v <= 19.
Proof.
  split.
  - destruct (from_ctype v) as [m|e] eqn:Hres; [|discriminate].
    intros _. apply from_ctype_Ok in Hres. subst v. destruct m; cbn; lia.
  - intros Hrange.
    assert (v = 1 \/ v = 2 \/ v = 3 \/ v = 4 \/ v = 5 \/ v = 6 \/ v = 7 \/
            v = 8 \/ v = 10 \/ v = 11 \/ v = 12 \/ v = 13 \/ v = 14 \/
            v = 17 \/ v = 18 \/ v = 19) as Hcases by lia.
    repeat (destruct Hcases as [->|Hcases]; [reflexivity|]).
    subst v. reflexivity.
Qed.

Lemma X2_from_ctype_accepted_range_witness :
  is_ok (from_ctype 12) = true /\ ~ (1 <= 15 <= 8 \/ 10 <= 15 <= 14 \/ 17 <= 15 <= 19).
Proof.
  split.
  - apply (X2_from_ctype_accepted_range 12). lia.
  - intros Hrange. apply (X2_from_ctype_accepted_range 15) in Hrange.
    vm_compute in Hrange. discriminate.
Defined.

End FFBPTypeExtras.

(** ** The discovery of the library and the import of the module *)

Section ImportExtras.

Import VJoyInterface.

Variable isfile : string -> bool.
Variable module_dir : string.
Variable path_join : string -> string -> string.
Variable exports : string -> string -> bool.
Variable load_failure : string -> option string.

Local Abbreviation dev_path := (VJoyInterface.dev_path module_dir path_join).

(** X3. The class body ends without an error exactly when the first
    candidate that is a file loads. The library it keeps is a file that
    loaded, is one of the two candidates, and is the only path handed to
    [LoadLibrary]; when the body raises, [vjoy_dll] is not set and at most
    one path was handed over. There is no way back: when the file of the
    working directory exists and does not load, the body raises and the
    candidate beside the module is neither asked for nor loaded. *)
Theorem X3_discovery_loads_only_an_existing_candidate :
  let run := class_body isfile module_dir path_join load_failure start in
  (is_ok run.1 = true
   <-> (isfile dll_name = true /\ load_failure dll_name = None)
       \/ (isfile dll_name = false /\ isfile dev_path = true /\
           load_failure dev_path = None)) /\
  (forall p : string,
     vjoy_dll run.2 = Some p ->
     isfile p = true /\ load_failure p = None /\
     (p = dll_name \/ p = dev_path) /\
     loaded (trace run.2) = [p]) /\
  (is_ok run.1 = false ->
   vjoy_dll run.2 = None /\ (length (loaded (trace run.2)) <= 1)%nat) /\
  (isfile dll_name = true -> load_failure dll_name <> None ->
   is_ok run.1 = false /\
   probed (trace run.2) = [dll_name] /\ loaded (trace run.2) = [dll_name]).
Proof.
  cbv zeta.
  destruct (isfile dll_name) eqn:Hcwd.
  - rewrite (class_body_cwd isfile module_dir path_join load_failure Hcwd).
    destruct (load_failure dll_name) as [msg|] eqn:Hload; cbn.
    + split; [|split; [|split]].
      * split; [discriminate|]. intros [[_ ?]|[? _]]; discriminate.
      * discriminate.
      * auto.
      * auto.
    + split; [|split; [|split]].
      * split; auto.
      * intros p [= <-]. auto.
      * discriminate.
      * intros _ Hne. now destruct Hne.
  - destruct (isfile dev_path) eqn:Hdev.
    + rewrite (class_body_dev isfile module_dir path_join load_failure Hcwd Hdev).
      destruct (load_failure dev_path) as [msg|] eqn:Hload; cbn.
      * split; [|split; [|split]].
        -- split; [discriminate|]. intros [[? _]|(_ & _ & ?)]; discriminate.
        -- discriminate.
        -- auto.
        -- discriminate.
      * split; [|split; [|split]].
        -- split; auto.
        -- intros p [= <-]. auto.
        -- discriminate.
        -- discriminate.
    + rewrite (class_body_neither isfile module_dir path_join load_failure Hcwd Hdev).
      cbn. split; [|split; [|split]].
      * split; [discriminate|]. intros [[? _]|(_ & ? & _)]; discriminate.
      * discriminate.
      * auto.
      * discriminate.
Qed.

Lemma bind_function_shape (n : string) (p : params) (s : state) :
  (exists path,
     vjoy_dll s = Some path /\ exports path n = true /\
     bind_function exports n p s
     = (Ok tt, {| vjoy_dll := vjoy_dll s; ffb_callback_fn := ffb_callback_fn s;
                  attrs := <[n := configure (fresh_fn n) p]> (attrs s);
                  trace := (trace s ++ [EvGetAttr n])
                             ++ [EvSetAttr n (configure (fresh_fn n) p)] |}))
  \/ (exists e,
        bind_function exports n p s
        = (Raise e, {| vjoy_dll := vjoy_dll s;
                       ffb_callback_fn := ffb_callback_fn s;
                       attrs := attrs s;
                       trace := trace s ++ [EvGetAttr n] |})).
Proof.
  unfold bind_function, getattr_dll, bind. cbn.
  destruct (vjoy_dll s) as [path|] eqn:Hdll.
  - destruct (exports path n) eqn:Hexp.
    + left. exists path. auto.
    + right. eauto.
  - right. eauto.
Qed.

Lemma for_items_frame (items : list (string * params)) (s : state) :
  let run := for_items exports items s in
  vjoy_dll run.2 = vjoy_dll s /\
  ffb_callback_fn run.2 = ffb_callback_fn s /\
  (forall name, name ∉ items.*1 -> attrs run.2 !! name = attrs s !! name) /\
  exists more,
    trace run.2 = (trace s ++ more)%list /\
    native_calls more = [] /\ probed more = [] /\ loaded more = [].
Proof.
  revert s. induction items as [|[n p] items IH]; intros s; cbv zeta.
  - cbn. repeat split. exists []. now rewrite app_nil_r.
  - cbn [for_items]. unfold bind.
    destruct (bind_function_shape n p s) as [(path & _ & _ & ->)|(e & ->)].
    + match goal with
      | |- context [for_items exports items ?s1] =>
          specialize (IH s1); destruct (for_items exports items s1) as [r s2]
      end.
      cbv zeta in IH. cbn [fst snd vjoy_dll ffb_callback_fn attrs trace] in IH |- *.
      destruct IH as (-> & -> & Hattrs & more & -> & Hnat & Hprobe & Hload).
      repeat split.
      * intros name Hnot. rewrite fmap_cons in Hnot.
        apply not_elem_of_cons in Hnot as [Hne Hnot].
        rewrite Hattrs by assumption. now rewrite lookup_insert_ne.
      * exists ([EvGetAttr n; EvSetAttr n (configure (fresh_fn n) p)] ++ more)%list.
        rewrite <- !app_assoc. repeat split; assumption.
    + cbn. repeat split. exists [EvGetAttr n]. repeat split.
Qed.


Lemma initialize_ok_iff (path : string) (s : state) :
  vjoy_dll s = Some path ->
  is_ok (initialize exports s).1 = true
  <-> forall name, name ∈ api_functions.*1 -> exports path name = true.
Proof.
  intros Hdll. unfold initialize. split.
  - intros Hok name Hin.
    destruct (exports path name) eqn:Hname; [reflexivity|].
    assert (Exists (fun it => exports path it.1 = false) api_functions) as Hex.
    { apply Exists_exists. apply list_elem_of_fmap in Hin as ([n p] & -> & Hnp).
      now exists (n, p). }
    destruct (first_missing exports api_functions path Hex)
      as (pre & missing & p & post & Hsplit & Hpre & Hmiss).
    rewrite Hsplit in Hok.
    rewrite (for_items_first_missing exports pre post missing p s path
               Hdll Hpre Hmiss) in Hok.
    discriminate.
  - intros Hall. rewrite (for_items_found exports api_functions s path Hdll).
    + reflexivity.
    + apply Forall_forall. intros [n p] Hnp. apply Hall.
      apply list_elem_of_fmap. now exists (n, p).
Qed.

(** X5. The import asks only the library it has loaded for the functions.
    When ["vJoyInterface.dll"] is a file of the working directory, the
    import ends well exactly when that file loads and exports every name of
    the table, whatever the file beside the module is; when only the file
    beside the module exists, exactly when that one loads and exports them
    all. *)
Theorem X5_import_depends_on_the_loaded_library_only :
  let run :=
    module_body isfile module_dir path_join exports load_failure start in
  (isfile dll_name = true ->
   (is_ok run.1 = true
    <-> load_failure dll_name = None /\
        forall name, name ∈ api_functions.*1 -> exports dll_name name = true)) /\
  (isfile dll_name = false -> isfile dev_path = true ->
   (is_ok run.1 = true
    <-> load_failure dev_path = None /\
        forall name, name ∈ api_functions.*1 -> exports dev_path name = true)).
Proof.
  cbv zeta. unfold module_body, bind. split.
  - intros Hcwd.
    rewrite (class_body_cwd isfile module_dir path_join load_failure Hcwd).
    destruct (load_failure dll_name) as [msg|].
    + cbn. split; [discriminate | intros [? _]; discriminate].
    + rewrite (initialize_ok_iff dll_name) by reflexivity.
      split; [auto | now intros [_ ?]].
  - intros Hcwd Hdev.
    rewrite (class_body_dev isfile module_dir path_join load_failure Hcwd Hdev).
    destruct (load_failure dev_path) as [msg|].
    + cbn. split; [discriminate | intros [? _]; discriminate].
    + rewrite (initialize_ok_iff dev_path) by reflexivity.
      split; [auto | now intros [_ ?]].
Qed.

End ImportExtras.

(** A world with a file in the working directory that does not load and a
    library beside the module that would. *)
Lemma X3_discovery_loads_only_an_existing_candidate_witness :
  let run :=
    VJoyInterface.class_body (fun _ => true) "vjoy"
      (fun d f => d +:+ "/" +:+ f)
      (fun p => if String.eqb p "vJoyInterface.dll"
                then Some "[WinError 193]" else None)
      VJoyInterface.start in
  is_ok run.1 = false /\
  VJoyInterface.probed (VJoyInterface.trace run.2) = ["vJoyInterface.dll"] /\
  VJoyInterface.loaded (VJoyInterface.trace run.2) = ["vJoyInterface.dll"].
Proof.
  cbv zeta.
  destruct (X3_discovery_loads_only_an_existing_candidate
              (fun _ => true) "vjoy" (fun d f => d +:+ "/" +:+ f)
              (fun p => if String.eqb p "vJoyInterface.dll"
                        then Some "[WinError 193]" else None))
    as (_ & _ & _ & Hfails).
  apply Hfails; [reflexivity | discriminate].
Defined.

(** A world with a complete library in both places. *)
Lemma X5_import_depends_on_the_loaded_library_only_witness :
  is_ok (VJoyInterface.module_body (fun _ => true) "vjoy"
           (fun d f => d +:+ "/" +:+ f) (fun _ _ => true) (fun _ => None)
           VJoyInterface.start).1 = true.
Proof.
  destruct (X5_import_depends_on_the_loaded_library_only
              (fun _ => true) "vjoy" (fun d f => d +:+ "/" +:+ f)
              (fun _ _ => true) (fun _ => None))
    as (Hcwd & _).
  apply Hcwd; [reflexivity|]. split; [reflexivity|].
  intros name _. reflexivity.
Defined.

(** ** initialize and the class attributes *)

Section InitializeExtras.

Import VJoyInterface.

Variable exports : string -> string -> bool.

Lemma bind_all_idem (items : list (string * params)) (m : gmap string dll_fn) :
  NoDup items.*1 -> bind_all items (bind_all items m) = bind_all items m.
Proof.
  intros Hnd. apply map_eq. intros k.
  destruct (decide (k ∈ items.*1)) as [Hin|Hnot].
  - apply list_elem_of_fmap in Hin as ([n p] & -> & Hnp).
    now rewrite !(bind_all_lookup _ _ _ _ Hnd Hnp).
  - now rewrite !bind_all_other by assumption.
Qed.

Lemma exported_or_missing (items : list (string * params)) (path : string) :
  Forall (fun it => exports path it.1 = true) items
  \/ Exists (fun it => exports path it.1 = false) items.
Proof.
  induction items as [|[n p] items [IH|IH]].
  - left. constructor.
  - destruct (exports path n) eqn:Hn.
    + left. now constructor.
    + right. now left.
  - right. now right.
Qed.

(** What [initialize] returns and what it binds depends on the loaded
    library alone, not on the slot, the attributes or the events so far. *)
Lemma initialize_run (path : string) :
  exists r pre more,
    forall s : state,
      vjoy_dll s = Some path ->
      initialize exports s
      = (r, {| vjoy_dll := vjoy_dll s; ffb_callback_fn := ffb_callback_fn s;
               attrs := bind_all pre (attrs s);
               trace := trace s ++ more |}).
Proof.
  unfold initialize.
  destruct (exported_or_missing api_functions path) as [Hall|Hex].
  - exists (Ok tt), api_functions, (binding_events api_functions).
    intros s Hdll. now apply (for_items_found exports api_functions s path).
  - destruct (first_missing exports api_functions path Hex)
      as (pre & missing & p & post & -> & Hpre & Hmiss).
    exists (Raise (AttributeError ("function '" +:+ missing +:+ "' not found"))),
           pre, (binding_events pre ++ [EvGetAttr missing])%list.
    intros s Hdll.
    now apply (for_items_first_missing exports pre post missing p s path).
Qed.

(** X6. A second [initialize] on a library that exports every name ends
    well again, asks the library for every name once more, and leaves the
    class attributes, the loaded library and the callback slot as the first
    one left them. *)
Theorem X6_initialize_twice_binds_the_same (path : string) (s : state) :
  vjoy_dll s = Some path ->
  (forall name, name ∈ api_functions.*1 -> exports path name = true) ->
  let once := (initialize exports s).2 in
  let twice := initialize exports once in
  twice.1 = Ok tt /\
  attrs twice.2 = attrs once /\
  vjoy_dll twice.2 = vjoy_dll once /\
  ffb_callback_fn twice.2 = ffb_callback_fn once /\
  asked_names (trace twice.2)
  = (asked_names (trace once) ++ api_functions.*1)%list.
Proof.
  intros Hdll Hall. cbv zeta.
  assert (Forall (fun it => exports path it.1 = true) api_functions) as Hfor.
  { apply Forall_forall. intros [n p] Hnp. apply Hall.
    apply list_elem_of_fmap. now exists (n, p). }
  unfold initialize.
  rewrite (for_items_found exports api_functions s path Hdll Hfor).
  cbn [snd].
  rewrite for_items_found with (path := path) by (exact Hdll || exact Hfor).
  cbn [fst snd vjoy_dll ffb_callback_fn attrs trace].
  rewrite (bind_all_idem _ _ api_functions_NoDup).
  unfold asked_names. rewrite (omap_app _ (_ ++ _)).
  fold (asked_names (binding_events api_functions)).
  rewrite asked_binding_events. repeat split.
Qed.

(** X7. [initialize] and [set_ffb_event_callback] do not disturb each
    other's state: in either order they leave the same loaded library, the
    same callback slot and the same class attributes, and [initialize]
    returns or raises the same after a registration as without one. *)
Theorem X7_initialize_and_registration_commute
    (path : string) (s : state) (callback : callable) (vjoy_id : Z) :
  vjoy_dll s = Some path ->
  let registered_first :=
    initialize exports (set_ffb_event_callback callback vjoy_id s).2 in
  let initialized_first :=
    set_ffb_event_callback callback vjoy_id (initialize exports s).2 in
  registered_first.1 = (initialize exports s).1 /\
  vjoy_dll registered_first.2 = vjoy_dll initialized_first.2 /\
  ffb_callback_fn registered_first.2 = ffb_callback_fn initialized_first.2 /\
  attrs registered_first.2 = attrs initialized_first.2.
Proof.
  intros Hdll. cbv zeta.
  destruct (initialize_run path) as (r & pre & more & Hrun).
  rewrite (Hrun s Hdll), !set_ffb_event_callback_run. cbn [snd].
  rewrite Hrun by exact Hdll. repeat split.
Qed.

(** X8. [initialize] stops at the first name the library lacks. The names
    before it in the table are bound, with the types of their entries, and
    stay bound although [initialize] raises; the library is asked for no
    name after it, and the names after it are left as they were. *)
Theorem X8_initialize_stops_at_the_first_missing_name
    (path : string) (s : state) (pre post : list (string * params))
    (missing : string) (p : params) :
  vjoy_dll s = Some path ->
  api_functions = (pre ++ (missing, p) :: post)%list ->
  Forall (fun it => exports path it.1 = true) pre ->
  exports path missing = false ->
  let run := initialize exports s in
  run.1 = Raise (AttributeError ("function '" +:+ missing +:+ "' not found")) /\
  asked_names (trace run.2)
  = (asked_names (trace s) ++ pre.*1 ++ [missing])%list /\
  bound_names (trace run.2) = (bound_names (trace s) ++ pre.*1)%list /\
  (forall name q, (name, q) ∈ pre ->
     attrs run.2 !! name = Some (configure (fresh_fn name) q)) /\
  (forall name, name ∈ missing :: post.*1 ->
     attrs run.2 !! name = attrs s !! name).
Proof.
  intros Hdll Hsplit Hpre Hmiss. cbv zeta. unfold initialize.
  pose proof api_functions_NoDup as Hnd.
  rewrite Hsplit in Hnd |- *.
  rewrite (for_items_first_missing exports pre post missing p s path
             Hdll Hpre Hmiss).
  rewrite fmap_app, fmap_cons in Hnd.
  apply NoDup_app in Hnd as (Hndpre & Hdisj & _).
  cbn [fst snd attrs trace]. unfold asked_names, bound_names.
  rewrite !omap_app.
  fold (asked_names (binding_events pre)).
  fold (bound_names (binding_events pre)).
  rewrite asked_binding_events, bound_binding_events. cbn.
  rewrite app_nil_r. repeat split.
  - intros name q Hin. now apply bind_all_lookup.
  - intros name Hin. apply bind_all_other.
    intros Hin'. exact (Hdisj _ Hin' Hin).
Qed.

(** X9. [initialize] touches the names of the table only: whatever the
    library exports and whether it returns or raises, a class attribute
    under any other name is as before, and so are the loaded library and
    the callback slot. *)
Theorem X9_initialize_keeps_other_attributes (s : state) (name : string) :
  name ∉ api_functions.*1 ->
  let run := initialize exports s in
  attrs run.2 !! name = attrs s !! name /\
  vjoy_dll run.2 = vjoy_dll s /\
  ffb_callback_fn run.2 = ffb_callback_fn s.
Proof.
  intros Hnot. cbv zeta. unfold initialize.
  destruct (for_items_frame exports api_functions s) as (Hdll & Hslot & Hattrs & _).
  repeat split; auto.
Qed.

End InitializeExtras.

(** A library that exports every name, initialized twice. *)
Lemma X6_initialize_twice_binds_the_same_witness :
  let loaded := {| VJoyInterface.vjoy_dll := Some "vJoyInterface.dll";
                   VJoyInterface.ffb_callback_fn := None;
                   VJoyInterface.attrs := ∅; VJoyInterface.trace := [] |} in
  (VJoyInterface.initialize (fun _ _ => true)
     (VJoyInterface.initialize (fun _ _ => true) loaded).2).1 = Ok tt.
Proof.
  cbv zeta.
  apply (X6_initialize_twice_binds_the_same (fun _ _ => true)
           "vJoyInterface.dll"
           {| VJoyInterface.vjoy_dll := Some "vJoyInterface.dll";
              VJoyInterface.ffb_callback_fn := None;
              VJoyInterface.attrs := ∅; VJoyInterface.trace := [] |}).
  - reflexivity.
  - intros name _. reflexivity.
Defined.

(** A registration for the device 1 around [initialize] on a library
    without [Ffb_h_Type]. *)
Lemma X7_initialize_and_registration_commute_witness :
  let loaded := {| VJoyInterface.vjoy_dll := Some "vJoyInterface.dll";
                   VJoyInterface.ffb_callback_fn := None;
                   VJoyInterface.attrs := ∅; VJoyInterface.trace := [] |} in
  let exports := fun (_ n : string) => negb (String.eqb n "Ffb_h_Type") in
  let handler := VJoyInterface.PyCallable 1 in
  VJoyInterface.attrs
    (VJoyInterface.initialize exports
       (VJoyInterface.set_ffb_event_callback handler 1 loaded).2).2
  = VJoyInterface.attrs
      (VJoyInterface.set_ffb_event_callback handler 1
         (VJoyInterface.initialize exports loaded).2).2.
Proof.
  cbv zeta.
  apply (X7_initialize_and_registration_commute
           (fun (_ n : string) => negb (String.eqb n "Ffb_h_Type"))
           "vJoyInterface.dll"
           {| VJoyInterface.vjoy_dll := Some "vJoyInterface.dll";
              VJoyInterface.ffb_callback_fn := None;
              VJoyInterface.attrs := ∅; VJoyInterface.trace := [] |}
           (VJoyInterface.PyCallable 1) 1).
  reflexivity.
Defined.

(** A library without [GetVJDAxisExist], the ninth name of the table. *)
Lemma X8_initialize_stops_at_the_first_missing_name_witness :
  let loaded := {| VJoyInterface.vjoy_dll := Some "vJoyInterface.dll";
                   VJoyInterface.ffb_callback_fn := None;
                   VJoyInterface.attrs := ∅; VJoyInterface.trace := [] |} in
  let exports := fun (_ n : string) => negb (String.eqb n "GetVJDAxisExist") in
  (VJoyInterface.initialize exports loaded).1
  = Raise (AttributeError "function 'GetVJDAxisExist' not found") /\
  VJoyInterface.bound_names
    (VJoyInterface.trace (VJoyInterface.initialize exports loaded).2)
  = (take 8 VJoyInterface.api_functions).*1.
Proof.
  cbv zeta.
  destruct (X8_initialize_stops_at_the_first_missing_name
              (fun (_ n : string) => negb (String.eqb n "GetVJDAxisExist"))
              "vJoyInterface.dll"
              {| VJoyInterface.vjoy_dll := Some "vJoyInterface.dll";
                 VJoyInterface.ffb_callback_fn := None;
                 VJoyInterface.attrs := ∅; VJoyInterface.trace := [] |}
              (take 8 VJoyInterface.api_functions)
              (drop 9 VJoyInterface.api_functions)
              "GetVJDAxisExist"
              (VJoyInterface.entry [c_uint; c_uint] (Some c_int)))
    as (Hraise & _ & Hbound & _).
  - reflexivity.
  - reflexivity.
  - vm_compute. repeat constructor.
  - reflexivity.
  - split; [exact Hraise | exact Hbound].
Defined.

(** A class that has, beside the loaded library, an attribute that is no
    name of the table: [initialize] binds the 29 names and keeps it. *)
Lemma X9_initialize_keeps_other_attributes_witness :
  let before :=
    {| VJoyInterface.vjoy_dll := Some "vJoyInterface.dll";
       VJoyInterface.ffb_callback_fn := None;
       VJoyInterface.attrs :=
         {[ "GetDevice" := VJoyInterface.fresh_fn "GetDevice" ]};
       VJoyInterface.trace := [] |} in
  let run := VJoyInterface.initialize (fun _ _ => true) before in
  run.1 = Ok tt /\
  VJoyInterface.attrs run.2 !! "GetVJDStatus"
  = Some {| VJoyInterface.symbol := "GetVJDStatus";
            VJoyInterface.argtypes := Some [c_uint];
            VJoyInterface.restype := Some c_int |} /\
  VJoyInterface.attrs run.2 !! "GetDevice"
  = Some (VJoyInterface.fresh_fn "GetDevice").
Proof.
  cbv zeta. split; [vm_compute; reflexivity|]. split; [vm_compute; reflexivity|].
  destruct (X9_initialize_keeps_other_attributes (fun _ _ => true)
              {| VJoyInterface.vjoy_dll := Some "vJoyInterface.dll";
                 VJoyInterface.ffb_callback_fn := None;
                 VJoyInterface.attrs :=
                   {[ "GetDevice" := VJoyInterface.fresh_fn "GetDevice" ]};
                 VJoyInterface.trace := [] |}
              "GetDevice") as (Hkept & _).
  - apply (bool_decide_eq_false_1
             ("GetDevice" ∈ VJoyInterface.api_functions.*1)).
    vm_compute. reflexivity.
  - rewrite Hkept. vm_compute. reflexivity.
Defined.

(** ** The class after a successful import *)

Section ImportedClass.

Import VJoyInterface.

Variable isfile : string -> bool.
Variable module_dir : string.
Variable path_join : string -> string -> string.
Variable exports : string -> string -> bool.
Variable load_failure : string -> option string.

Lemma dom_bind_all (items : list (string * params)) (m : gmap string dll_fn) :
  dom (bind_all items m) = list_to_set items.*1 ∪ dom m.
Proof.
  revert m. induction items as [|[n p] items IH]; intros m.
  - cbn. now rewrite (left_id_L ∅ (∪)).
  - rewrite bind_all_cons, IH, dom_insert_L, fmap_cons, list_to_set_cons.
    rewrite (comm_L (∪) {[n]} (list_to_set items.*1)).
    now rewrite (assoc_L (∪)).
Qed.

(** X10. When the import of the module ends well, the class has the
    functions of the table as attributes and no other: their names are the
    29 names of the table, each bound to the function of that name, and
    the library they come from is a file. *)
Theorem X10_import_binds_exactly_the_table :
  let run := module_body isfile module_dir path_join exports load_failure start in
  is_ok run.1 = true ->
  dom (attrs run.2) = list_to_set api_functions.*1 /\
  size (attrs run.2) = 29%nat /\
  (forall name fn, attrs run.2 !! name = Some fn -> symbol fn = name) /\
  exists p, vjoy_dll run.2 = Some p /\ isfile p = true.
Proof.
  cbv zeta. unfold module_body, bind.
  assert (forall s1 p,
            vjoy_dll s1 = Some p -> attrs s1 = ∅ -> isfile p = true ->
            is_ok (initialize exports s1).1 = true ->
            dom (attrs (initialize exports s1).2) = list_to_set api_functions.*1 /\
            size (attrs (initialize exports s1).2) = 29%nat /\
            (forall name fn,
               attrs (initialize exports s1).2 !! name = Some fn ->
               symbol fn = name) /\
            exists q, vjoy_dll (initialize exports s1).2 = Some q /\
                      isfile q = true) as Hinit.
  { intros s1 p Hdll Hempty Hfile Hok.
    pose proof (proj1 (initialize_ok_iff exports p s1 Hdll) Hok) as Hall.
    assert (Forall (fun it => exports p it.1 = true) api_functions) as Hfor.
    { apply Forall_forall. intros [n q] Hnq. apply Hall.
      apply list_elem_of_fmap. now exists (n, q). }
    unfold initialize.
    rewrite (for_items_found exports api_functions s1 p Hdll Hfor).
    cbn [snd attrs vjoy_dll]. rewrite Hempty.
    assert (dom (bind_all api_functions (∅ : gmap string dll_fn))
            = list_to_set api_functions.*1) as Hdom.
    { now rewrite dom_bind_all, dom_empty_L, (right_id_L ∅ (∪)). }
    split; [exact Hdom|]. split; [|split].
    - rewrite <- size_dom, Hdom.
      now rewrite (size_list_to_set _ api_functions_NoDup).
    - intros name fn Hfn.
      assert (name ∈ api_functions.*1) as Hin.
      { apply (elem_of_list_to_set (C := gset string)). rewrite <- Hdom.
        apply elem_of_dom. eauto. }
      apply list_elem_of_fmap in Hin as ([n q] & -> & Hnq).
      rewrite (bind_all_lookup _ _ _ _ api_functions_NoDup Hnq) in Hfn.
      injection Hfn as <-.
      pose proof (proj1 (Forall_forall _ _) api_functions_entries _ Hnq)
        as (args & ret & Hq).
      cbn in Hq. subst q. reflexivity.
    - exists p. rewrite Hdll. auto. }
  destruct (isfile dll_name) eqn:Hcwd.
  - rewrite (class_body_cwd isfile module_dir path_join load_failure Hcwd).
    destruct (load_failure dll_name); [discriminate|].
    intros Hok. now apply (Hinit _ dll_name).
  - destruct (isfile (dev_path module_dir path_join)) eqn:Hdev.
    + rewrite (class_body_dev isfile module_dir path_join load_failure
                 Hcwd Hdev).
      destruct (load_failure (dev_path module_dir path_join)); [discriminate|].
      intros Hok. now apply (Hinit _ (dev_path module_dir path_join)).
    + rewrite (class_body_neither isfile module_dir path_join load_failure
                 Hcwd Hdev).
      discriminate.
Qed.

End ImportedClass.

(** A world with a complete library in the working directory. *)
Lemma X10_import_binds_exactly_the_table_witness :
  size (VJoyInterface.attrs
          (VJoyInterface.module_body (fun _ => true) "vjoy"
             (fun d f => d +:+ "/" +:+ f) (fun _ _ => true) (fun _ => None)
             VJoyInterface.start).2)
  = 29%nat.
Proof.
  apply (X10_import_binds_exactly_the_table (fun _ => true) "vjoy"
           (fun d f => d +:+ "/" +:+ f) (fun _ _ => true) (fun _ => None)).
  vm_compute. reflexivity.
Defined.

(** ** The device id of a registration *)

(** X11. [set_ffb_event_callback] hands the device id over as a 32 bit
    unsigned integer: an id from 0 to 2^32 - 1 arrives as it is, and two
    ids have the same effect exactly when they are equal modulo 2^32, so
    that -1 registers for the device 4294967295. *)
Theorem X11_registration_cuts_the_device_id
    (callback : VJoyInterface.callable) (vjoy_id other_id : Z)
    (s : VJoyInterface.state) :
  (VJoyInterface.set_ffb_event_callback callback vjoy_id s
   = VJoyInterface.set_ffb_event_callback callback other_id s
   <-> vjoy_id mod 2 ^ 32 = other_id mod 2 ^ 32) /\
  (0 <= vjoy_id < 2 ^ 32 ->
   last (VJoyInterface.trace
           (VJoyInterface.set_ffb_event_callback callback vjoy_id s).2)
   = Some (VJoyInterface.EvNative "FfbRegisterGenCB"
             [ Some (VJoyInterface.CFuncPtr C_FFB_CALLBACK callback);
               Some (VJoyInterface.ByRef (VJoyInterface.CUInt vjoy_id)) ])).
Proof.
  rewrite !set_ffb_event_callback_run. unfold VJoyInterface.registration.
  cbn [fst snd VJoyInterface.trace]. split; [split|].
  - intros [= Heq]. apply app_inv_head in Heq. now injection Heq.
  - intros ->. reflexivity.
  - intros Hrange. rewrite last_snoc, Z.mod_small by exact Hrange. reflexivity.
Qed.

Lemma X11_registration_cuts_the_device_id_witness :
  VJoyInterface.set_ffb_event_callback (VJoyInterface.PyCallable 1) (-1)
    VJoyInterface.start
  = VJoyInterface.set_ffb_event_callback (VJoyInterface.PyCallable 1)
      4294967295 VJoyInterface.start.
Proof.
  apply (X11_registration_cuts_the_device_id (VJoyInterface.PyCallable 1)
           (-1) 4294967295 VJoyInterface.start).
  reflexivity.
Defined.

(** ** The layout of FFB_DATA *)

Lemma align_up_spec (offset align : Z) :
  0 < align ->
  offset <= align_up offset align < offset + align /\
  align_up offset align mod align = 0.
Proof.
  intros Hpos. unfold align_up. split.
  - pose proof (Z.div_mod (offset + align - 1) align ltac:(lia)) as Hdiv.
    pose proof (Z.mod_pos_bound (offset + align - 1) align Hpos) as Hmod.
    lia.
  - apply Z.mod_mul. lia.
Qed.

Lemma align_up_multiple (offset align : Z) :
  0 < align -> offset mod align = 0 -> align_up offset align = offset.
Proof.
  intros Hpos Hmult.
  destruct (align_up_spec offset align Hpos) as [Hrange Hup].
  apply Z.mod_divide in Hmult, Hup; try lia.
  destruct Hmult as [k ->], Hup as [j Hj]. rewrite Hj in *.
  assert (k <= j) as Hle by nia.
  assert (j < k + 1) as Hlt by nia.
  f_equal. lia.
Qed.

(** X12. Whatever the widths of [long] and of a pointer, the fields of
    [_FFB_DATA] do not overlap and lie where C puts them: [size] at 0,
    [cmd] right after it, and [data] at the first multiple of the pointer
    width at or after the end of [cmd]. *)
Theorem X12_FFB_DATA_fields_do_not_overlap (dm : data_model) :
  0 < long_bytes dm -> 0 < pointer_bytes dm ->
  exists data_offset : Z,
    field_offsets dm 0 _FFB_DATA_fields
    = [("size", 0); ("cmd", long_bytes dm); ("data", data_offset)] /\
    0 + sizeof dm c_ulong <= long_bytes dm /\
    long_bytes dm + sizeof dm c_ulong <= data_offset /\
    data_offset < 2 * long_bytes dm + pointer_bytes dm /\
    data_offset mod pointer_bytes dm = 0.
Proof.
  intros Hlong Hptr.
  exists (align_up (2 * long_bytes dm) (pointer_bytes dm)).
  destruct (align_up_spec (2 * long_bytes dm) (pointer_bytes dm) Hptr)
    as [Hrange Hmult].
  repeat split; cbn [sizeof]; try lia.
  cbn [field_offsets _FFB_DATA_fields]. unfold alignment. cbn [sizeof].
  rewrite (align_up_multiple 0 (long_bytes dm)) by (auto using Z.mod_0_l with lia).
  rewrite Z.add_0_l.
  rewrite (align_up_multiple (long_bytes dm) (long_bytes dm))
    by (auto using Z.mod_same with lia).
  replace (long_bytes dm + long_bytes dm) with (2 * long_bytes dm) by lia.
  reflexivity.
Qed.

Lemma X12_FFB_DATA_fields_do_not_overlap_witness :
  exists data_offset : Z,
    field_offsets LP64 0 _FFB_DATA_fields
    = [("size", 0); ("cmd", long_bytes LP64); ("data", data_offset)] /\
    0 + sizeof LP64 c_ulong <= long_bytes LP64 /\
    long_bytes LP64 + sizeof LP64 c_ulong <= data_offset /\
    data_offset < 2 * long_bytes LP64 + pointer_bytes LP64 /\
    data_offset mod pointer_bytes LP64 = 0.
Proof.
  apply (X12_FFB_DATA_fields_do_not_overlap LP64); reflexivity.
Defined.

(** ** The values of VJoyState *)

(** X13. The members of [VJoyState] have distinct values, and the lookup by
    value is the inverse of [value]: it returns a member exactly for the
    value that member is declared with. *)
Theorem X13_VJoyState_value_round_trip (raw : Z) (m : VJoyState.t) :
  (VJoyState.by_value raw = Ok m <-> raw = VJoyState.value m) /\
  (forall m' : VJoyState.t,
     VJoyState.value m = VJoyState.value m' -> m = m').
Proof.
  split.
  - split; [apply by_value_Ok | intros ->; apply by_value_value].
  - intros m' Heq. pose proof (by_value_value m) as Hm.
    rewrite Heq, by_value_value in Hm. congruence.
Qed.

Lemma X13_VJoyState_value_round_trip_witness :
  VJoyState.by_value 2 = Ok VJoyState.Bust.
Proof.
  apply (X13_VJoyState_value_round_trip 2 VJoyState.Bust). reflexivity.
Defined.
